(** * Luganodes staking dashboard: authentication and session flow

    A shallow embedding of the client session manager
    ([frontend/src/App.js], [frontend/src/pages/LoginPage.jsx],
    [frontend/src/pages/DashboardPage.jsx]) and of the credential store and
    session-token contract of the backend, with the properties the
    specification states about them. *)

From Stdlib Require Import ZArith.
From stdpp Require Import base option list strings gmap pretty.

Local Open Scope string_scope.
Local Open Scope list_scope.

(** ** JavaScript values

    The primitive values the two pages read out of responses, errors and
    browser storage, with the coercions the code relies on: truthiness
    ([if (x)], [!x], [a || b]) and string conversion (template literals,
    [localStorage.setItem]). *)
Module Js.

Inductive jsval : Type :=
| JUndefined
| JNull
| JBool (b : bool)
| JNum (n : Z)
| JStr (s : string).

Definition truthy (v : jsval) : bool :=
  match v with
  | JUndefined | JNull => false
  | JBool b => b
  | JNum n => negb (n =? 0)%Z
  | JStr s => negb (String.eqb s "")
  end.

(** [String(v)]; numbers are whole and printed in full, which is what
    JavaScript does below 1e21. *)
Definition to_string (v : jsval) : string :=
  match v with
  | JUndefined => "undefined"
  | JNull => "null"
  | JBool true => "true"
  | JBool false => "false"
  | JNum n => pretty n
  | JStr s => s
  end.

(** What React renders for [{v}] inside an element: strings and numbers
    as text, [undefined], [null] and booleans as nothing. *)
Definition react_text (v : jsval) : string :=
  match v with
  | JStr s => s
  | JNum n => pretty n
  | JUndefined | JNull | JBool _ => ""
  end.

(** [a || b] *)
Definition js_or (a b : jsval) : jsval := if truthy a then a else b.

(** [xs[i]] on an array of numbers *)
Definition index (xs : list Z) (i : nat) : jsval :=
  match xs !! i with
  | Some n => JNum n
  | None => JUndefined
  end.

(** [Array.prototype.includes] on an array of strings *)
Fixpoint includes (xs : list string) (x : string) : bool :=
  match xs with
  | [] => false
  | y :: ys => if String.eqb y x then true else includes ys x
  end.

(** [Array.prototype.filter]: visits the elements by increasing index and
    pushes the ones the callback accepts onto a fresh array. *)
Fixpoint filter_from {A : Type} (f : A → bool) (out xs : list A) : list A :=
  match xs with
  | [] => out
  | x :: rest => filter_from f (if f x then out ++ [x] else out) rest
  end.

Definition array_filter {A : Type} (f : A → bool) (xs : list A) : list A :=
  filter_from f [] xs.

End Js.
Import Js.

(** ** Browser-local storage *)
Module LocalStorage.

Abbreviation Storage := (gmap string string).

(** [getItem] answers [null] for a key that is not stored. *)
Definition getItem (ls : Storage) (key : string) : jsval :=
  match ls !! key with
  | Some s => JStr s
  | None => JNull
  end.

(** [setItem] stores the string conversion of its argument. *)
Definition setItem (key : string) (v : jsval) (ls : Storage) : Storage :=
  <[key := to_string v]> ls.

Definition removeItem (key : string) (ls : Storage) : Storage :=
  delete key ls.

End LocalStorage.
Import LocalStorage.

(** ** HTTP exchange as the pages see it through axios *)

Record FormData : Type := mkFormData {
  fd_email : string;
  fd_password : string;
  fd_username : string
}.

Inductive Payload : Type :=
| LoginBody (email password : string)
| SignupBody (form : FormData).

Record Request : Type := mkRequest {
  req_post : bool;
  req_url : string;
  req_headers : list (string * string);
  req_body : option Payload
}.

(** The fields of a response body that the client reads; a field the
    body lacks reads as [undefined]. *)
Record Body : Type := mkBody {
  success : jsval;
  token : jsval;
  username : jsval;
  error : jsval
}.

(** [data = None] stands for a body that is [null] or [undefined], on
    which a property access throws. *)
Record Response (D : Type) : Type := mkResponse {
  status : Z;
  data : option D
}.
Arguments mkResponse {D} _ _.
Arguments status {D} _.
Arguments data {D} _.

(** What [catch] receives: an axios error carries the response when the
    server answered, a network failure or a [TypeError] does not. *)
Record JsError : Type := mkError {
  response : option (Response Body);
  message : jsval
}.

Inductive Settled (A : Type) : Type :=
| Fulfilled (a : A)
| Rejected (e : JsError).
Arguments Fulfilled {A} _.
Arguments Rejected {A} _.

(** Reading a property of [null]/[undefined]; the text is the engine's. *)
Definition type_error (prop : string) : JsError :=
  mkError None (JStr ("Cannot read properties of undefined (reading '" +:+ prop +:+ "')")).

(** Effects a handler has besides storage and component state. *)
Inductive Effect : Type :=
| Navigate (path : string)
| ConsoleError (label : string) (e : JsError).

(** A handler either finishes at once or first sends requests and
    resumes with what [await] delivers. *)
Inductive Run (R S : Type) : Type :=
| Finished (st : S) (ls : Storage) (effs : list Effect)
| Awaiting (reqs : list Request)
           (resume : Settled R → S * Storage * list Effect).
Arguments Finished {R S} _ _ _.
Arguments Awaiting {R S} _ _.

Definition requests {R S : Type} (r : Run R S) : list Request :=
  match r with
  | Finished _ _ _ => []
  | Awaiting reqs _ => reqs
  end.

Definition outcome {R S : Type} (r : Run R S) (res : Settled R)
  : S * Storage * list Effect :=
  match r with
  | Finished st ls effs => (st, ls, effs)
  | Awaiting _ resume => resume res
  end.

(** [API]: [process.env.REACT_APP_API_URL || 'http://localhost:8001'],
    then ["/api"]. *)
Definition API (env_api_url : jsval) : string :=
  to_string (js_or env_api_url (JStr "http://localhost:8001")) +:+ "/api".

(** ** Router ([App.js]) *)
Module App.

Inductive Page : Type := LoginPage | DashboardPage.

Inductive Match : Type :=
| Element (p : Page)
| Redirect (to : string).

(** The three routes, matched on the exact path; the handlers navigate
    to ["/"] and ["/dashboard"] only. *)
Definition route (path : string) : Match :=
  if String.eqb path "/" then Element LoginPage
  else if String.eqb path "/dashboard" then Element DashboardPage
  else Redirect "/".

End App.

(** ** Login and signup page ([LoginPage.jsx]) *)
Module LoginPage.

Record State : Type := mkState {
  isLogin : bool;
  loading : bool;
  error_msg : jsval;
  formData : FormData
}.

Definition initial : State :=
  mkState true false (JStr "") (mkFormData "" "" "").

Definition setError (v : jsval) (st : State) : State :=
  mkState (isLogin st) (loading st) v (formData st).

Definition setLoading (b : bool) (st : State) : State :=
  mkState (isLogin st) b (error_msg st) (formData st).

Definition endpoint (st : State) : string :=
  if isLogin st then "/auth/login" else "/auth/signup".

Definition payload (st : State) : Payload :=
  if isLogin st
  then LoginBody (fd_email (formData st)) (fd_password (formData st))
  else SignupBody (formData st).

(** [err.response?.data?.error] *)
Definition response_error (err : JsError) : jsval :=
  match response err with
  | None => JUndefined
  | Some r => match data r with
              | None => JUndefined
              | Some d => error d
              end
  end.

(** The argument of [setError] in the [catch] block. *)
Definition catch_message (err : JsError) : jsval :=
  js_or (response_error err) (js_or (message err) (JStr "An error occurred")).

(** The [try] block after [await]: either it throws, or it yields the
    new component state, storage and effects. *)
Definition try_body (st : State) (ls : Storage) (res : Settled (Response Body))
  : JsError + State * Storage * list Effect :=
  match res with
  | Rejected err => inl err
  | Fulfilled r =>
      match data r with
      | None => inl (type_error "success")
      | Some d =>
          if truthy (success d)
          then inr (st,
                    setItem "username" (username d) (setItem "token" (token d) ls),
                    [Navigate "/dashboard"])
          else inr (setError (js_or (error d) (JStr "Authentication failed")) st,
                    ls, [])
      end
  end.

Definition handleSubmit (api : string) (st : State) (ls : Storage)
  : Run (Response Body) State :=
  let st1 := setLoading true (setError (JStr "") st) in
  Awaiting
    [mkRequest true (api +:+ endpoint st) [] (Some (payload st))]
    (λ res,
       let '(st2, ls2, effs) :=
         match try_body st1 ls res with
         | inr done => done
         | inl err => (setError (catch_message err) st1, ls, [])
         end in
       (setLoading false st2, ls2, effs)).

(** What the form shows: the alert is rendered by [{error && ...}], the
    submit button is disabled while [loading]. *)
Record View : Type := mkView {
  alert : option string;
  submit_disabled : bool;
  login_mode : bool
}.

Definition render (st : State) : View :=
  mkView (if truthy (error_msg st) then Some (react_text (error_msg st)) else None)
         (loading st)
         (isLogin st).

(** Whether [handleSubmit] takes its success branch on what [await]
    delivers. *)
Definition accepted (res : Settled (Response Body)) : bool :=
  match res with
  | Fulfilled r => match data r with
                   | Some d => truthy (success d)
                   | None => false
                   end
  | Rejected _ => false
  end.

End LoginPage.

(** ** Dashboard page ([DashboardPage.jsx]) *)
Module DashboardPage.

(** Parsed JSON the page stores and hands on to its cards and charts
    without looking inside. *)
#[warnings="-register-all"] Inductive json : Type :=
| JsonNull
| JsonBool (b : bool)
| JsonNumber (literal : string)
| JsonString (s : string)
| JsonArray (items : list json)
| JsonObject (props : list (string * json)).

(** An entry of [/staking/assets]: the property the filter reads, and the
    remaining ones. *)
Record Asset : Type := mkAsset {
  asset_symbol : string;
  asset_props : list (string * json)
}.

Record State : Type := mkState {
  loading : bool;
  overview : option json;
  assets : list Asset;
  rewardsHistory : list json;
  performance : list json;
  dateRange : list Z;
  selectedAssets : list string
}.

Definition initial : State := mkState true None [] [] [] [30%Z] [].

Definition setOverview (v : json) (st : State) : State :=
  mkState (loading st) (Some v) (assets st) (rewardsHistory st)
          (performance st) (dateRange st) (selectedAssets st).

Definition setAssets (v : list Asset) (st : State) : State :=
  mkState (loading st) (overview st) v (rewardsHistory st)
          (performance st) (dateRange st) (selectedAssets st).

Definition setRewardsHistory (v : list json) (st : State) : State :=
  mkState (loading st) (overview st) (assets st) v
          (performance st) (dateRange st) (selectedAssets st).

Definition setPerformance (v : list json) (st : State) : State :=
  mkState (loading st) (overview st) (assets st) (rewardsHistory st)
          v (dateRange st) (selectedAssets st).

Definition setLoading (b : bool) (st : State) : State :=
  mkState b (overview st) (assets st) (rewardsHistory st)
          (performance st) (dateRange st) (selectedAssets st).

(** What [await Promise.all([...])] destructures into when all four
    requests succeed; when one fails, [await] throws the reason of the
    first request to fail. *)
Record Responses : Type := mkResponses {
  overviewRes : Response json;
  assetsRes : Response (list Asset);
  rewardsRes : Response (list json);
  perfRes : Response (list json)
}.

Definition get (url : string) (headers : list (string * string)) : Request :=
  mkRequest false url headers None.

(** The four requests of [fetchDashboardData]. *)
Definition fetch_requests (api : string) (st : State) (ls : Storage)
  : list Request :=
  let token := getItem ls "token" in
  let headers := [("Authorization", "Bearer " +:+ to_string token)] in
  let days := to_string (index (dateRange st) 0) in
  [ get (api +:+ "/staking/overview") headers;
    get (api +:+ "/staking/assets") headers;
    get (api +:+ "/staking/rewards-history?days=" +:+ days) headers;
    get (api +:+ "/staking/performance?days=" +:+ days) headers ].

(** The setter calls of the [try] block, in order; a [null] body makes
    the property access throw after the setters before it have run. *)
Definition try_body (st : State) (rs : Responses) : State * option JsError :=
  match data (overviewRes rs) with
  | None => (st, Some (type_error "data"))
  | Some o =>
    let st := setOverview o st in
    match data (assetsRes rs) with
    | None => (st, Some (type_error "data"))
    | Some a =>
      let st := setAssets a st in
      match data (rewardsRes rs) with
      | None => (st, Some (type_error "data"))
      | Some r =>
        let st := setRewardsHistory r st in
        match data (perfRes rs) with
        | None => (st, Some (type_error "data"))
        | Some p => (setLoading false (setPerformance p st), None)
        end
      end
    end
  end.

(** [error.response?.status === 401] *)
Definition is_401 (err : JsError) : bool :=
  match response err with
  | Some r => (status r =? 401)%Z
  | None => false
  end.

(** The [catch] block. *)
Definition on_error (st : State) (ls : Storage) (err : JsError)
  : State * Storage * list Effect :=
  let log := ConsoleError "Error fetching dashboard data:" err in
  if is_401 err
  then (st, removeItem "token" ls, [log; Navigate "/"])
  else (st, ls, [log]).

Definition fetchDashboardData (api : string) (st : State) (ls : Storage)
  : Run Responses State :=
  Awaiting
    (fetch_requests api st ls)
    (λ res,
       match res with
       | Rejected err => on_error st ls err
       | Fulfilled rs =>
           match try_body st rs with
           | (st', None) => (st', ls, [])
           | (st', Some err) => on_error st' ls err
           end
       end).

(** The effect hook, run when the page mounts and on each change of
    [dateRange]. *)
Definition useEffect (api : string) (st : State) (ls : Storage)
  : Run Responses State :=
  let token := getItem ls "token" in
  if negb (truthy token)
  then Finished st ls [Navigate "/"]
  else fetchDashboardData api st ls.

Definition handleLogout (st : State) (ls : Storage)
  : State * Storage * list Effect :=
  (st, removeItem "username" (removeItem "token" ls), [Navigate "/"]).

Definition filteredAssets (st : State) : list Asset :=
  if (0 <? length (selectedAssets st))%nat
  then array_filter (λ asset, includes (selectedAssets st) (asset_symbol asset))
                    (assets st)
  else assets st.

(** What the page shows: the loading screen while [loading], otherwise
    the cards, charts and asset list.  Neither carries an error text.
    [MainView] names the main branch of the JSX with the values it is
    given; the number formatting inside that branch ([toFixed],
    [toLocaleString]), which throws on an entry without numeric fields,
    is not modelled. *)
Inductive View : Type :=
| LoadingView
| MainView (overview : option json) (performance rewards : list json)
           (days : jsval) (listed : list Asset).

Definition render (st : State) : View :=
  if loading st then LoadingView
  else MainView (overview st) (performance st) (rewardsHistory st)
                (index (dateRange st) 0) (filteredAssets st).

Definition alert (v : View) : option string :=
  match v with
  | LoadingView => None
  | MainView _ _ _ _ _ => None
  end.

(** The error the [catch] block of [fetchDashboardData] receives, if any. *)
Definition caught (st : State) (res : Settled Responses) : option JsError :=
  match res with
  | Rejected err => Some err
  | Fulfilled rs => snd (try_body st rs)
  end.

(** The asset filter in the words of the specification: everything when
    nothing is selected, otherwise the assets whose symbol is selected,
    in their original order. *)
Definition filteredAssets_spec (selected : list string) (all : list Asset)
  : list Asset :=
  if decide (selected = []) then all
  else filter (λ a, asset_symbol a ∈ selected) all.

End DashboardPage.

(** ** Credential store and session tokens (backend contract)

    [backend/server.py] is not among the sources at hand; this section
    follows the specification's contract for it (sections 3, 4 and 7). *)
Module Server.

Inductive AuthError : Type :=
| DuplicateEmail
| InvalidCredentials
| TokenExpired
| TokenInvalid
| Unauthorized.

(** Modelled from the spec: the stored password hash of the missing
    backend, salted, with the cost factor recorded next to the digest. *)
Record PasswordHash : Type := mkHash {
  hash_cost : nat;
  hash_salt : string;
  hash_digest : string
}.

(** Modelled from the spec: the User record of the missing backend
    (identifier, unique email, username, salted hash, creation time). *)
Record User : Type := mkUser {
  user_id : string;
  user_email : string;
  user_name : string;
  user_hash : PasswordHash;
  user_created : Z
}.

(** Modelled from the spec: the identity a token of the missing backend
    embeds (user id and email). *)
Record Identity : Type := mkIdentity {
  id_user : string;
  id_email : string
}.

(** Modelled from the spec: the payload of a session token of the missing
    backend, the identity and an absolute expiry in seconds. *)
Record Claims : Type := mkClaims {
  claim_identity : Identity;
  claim_exp : Z
}.

(** Modelled from the spec: a session token of the missing backend as the
    validator sees it, either a string that does not parse or a payload
    with its signature. *)
Inductive Token : Type :=
| Malformed (raw : string)
| Signed (claims : Claims) (signature : string).

(** Modelled from the spec: what the missing [register] draws from its
    environment, a fresh identifier, a fresh salt and the clock. *)
Record Fresh : Type := mkFresh {
  fresh_id : string;
  fresh_salt : string;
  fresh_now : Z
}.

(** Modelled from the spec: the fixed cost factor (12 rounds) of the
    password hash of the missing backend. *)
Definition cost_factor : nat := 12.

(** Modelled from the spec: the token lifetime of the missing backend
    (7 days), in seconds. *)
Definition token_lifetime : Z := 7 * 24 * 60 * 60.

Section Contract.

(** The slow password hash and the keyed signature are left abstract. *)
Variable kdf : nat → string → string → string.
Variable sign : string → Claims → string.

(** Modelled from the spec: salted hashing of the missing backend. *)
Definition hashpw (salt password : string) : PasswordHash :=
  mkHash cost_factor salt (kdf cost_factor salt password).

(** Modelled from the spec: the hash comparison of the missing backend,
    recomputing the digest with the stored salt and cost. *)
Definition checkpw (password : string) (h : PasswordHash) : bool :=
  String.eqb (kdf (hash_cost h) (hash_salt h) password) (hash_digest h).

(** Modelled from the spec: lookup by email in the missing user store. *)
Definition find_user (email : string) (store : list User) : option User :=
  List.find (λ u, String.eqb (user_email u) email) store.

(** Modelled from the spec: [register] of the missing backend. *)
Definition register (env : Fresh) (email username password : string)
    (store : list User) : (AuthError + User) * list User :=
  match find_user email store with
  | Some _ => (inl DuplicateEmail, store)
  | None =>
      let u := mkUser (fresh_id env) email username
                      (hashpw (fresh_salt env) password) (fresh_now env) in
      (inr u, store ++ [u])
  end.

(** Modelled from the spec: [verify] of the missing backend. *)
Definition verify (email password : string) (store : list User)
  : AuthError + User :=
  match find_user email store with
  | None => inl InvalidCredentials
  | Some u => if checkpw password (user_hash u)
              then inr u
              else inl InvalidCredentials
  end.

(** Modelled from the spec: the identity [issue] of the missing backend
    embeds for a user. *)
Definition identity_of (u : User) : Identity :=
  mkIdentity (user_id u) (user_email u).

(** Modelled from the spec: [issue] of the missing backend. *)
Definition issue (secret : string) (now : Z) (u : User) : Token :=
  let claims := mkClaims (identity_of u) (now + token_lifetime) in
  Signed claims (sign secret claims).

(** Modelled from the spec: [validate] of the missing backend; the
    signature is checked before the expiry, and a token is expired from
    the instant of its expiry on. *)
Definition validate (secret : string) (now : Z) (t : Token)
  : AuthError + Identity :=
  match t with
  | Malformed _ => inl TokenInvalid
  | Signed claims signature =>
      if String.eqb signature (sign secret claims)
      then if (now <? claim_exp claims)%Z
           then inr (claim_identity claims)
           else inl TokenExpired
      else inl TokenInvalid
  end.

(** Modelled from the spec: the state of the missing server, the user
    store and the signing secret, and its request handlers. *)
Record State : Type := mkState {
  users : list User;
  secret : string
}.

(** Modelled from the spec: [POST /api/auth/signup] of the missing
    backend, [register] followed by [issue]. *)
Definition signup (env : Fresh) (email username password : string)
    (srv : State) : (AuthError + Token * string) * State :=
  match register env email username password (users srv) with
  | (inl e, store) => (inl e, mkState store (secret srv))
  | (inr u, store) =>
      (inr (issue (secret srv) (fresh_now env) u, user_name u),
       mkState store (secret srv))
  end.

(** Modelled from the spec: [POST /api/auth/login] of the missing
    backend, [verify] followed by [issue]. *)
Definition login (now : Z) (email password : string) (srv : State)
  : (AuthError + Token * string) * State :=
  match verify email password (users srv) with
  | inl e => (inl e, srv)
  | inr u => (inr (issue (secret srv) now u, user_name u), srv)
  end.

(** Modelled from the spec: the token check of a protected endpoint of
    the missing backend. *)
Definition authorize (now : Z) (t : Token) (srv : State)
  : (AuthError + Identity) * State :=
  (validate (secret srv) now t, srv).

(** The records stored under an email. *)
Definition records_for (email : string) (store : list User) : list User :=
  List.filter (λ u, String.eqb (user_email u) email) store.

(** The store invariant of the specification. *)
Definition one_per_email (store : list User) : Prop :=
  ∀ email, (length (records_for email store) ≤ 1)%nat.

(** A registration request with what the call draws from its
    environment, and a run of such requests against the store. *)
Record Signup : Type := mkSignup {
  su_env : Fresh;
  su_email : string;
  su_username : string;
  su_password : string
}.

Definition register_all (reqs : list Signup) (store : list User) : list User :=
  fold_left (λ st r, snd (register (su_env r) (su_email r) (su_username r)
                                  (su_password r) st))
            reqs store.

End Contract.

(** Stand-ins for the two abstract functions, to run the contract on
    concrete inputs. *)
Definition demo_kdf (cost : nat) (salt password : string) : string :=
  pretty cost +:+ "$" +:+ salt +:+ "$" +:+ password.

Definition demo_sign (key : string) (c : Claims) : string :=
  key +:+ "." +:+ id_user (claim_identity c) +:+ "."
      +:+ id_email (claim_identity c) +:+ "." +:+ pretty (claim_exp c).

End Server.

(** ** Concrete inputs used in the examples below *)
Module Examples.

Definition stored_session : Storage :=
  <["token" := "t0"]> (<["username" := "ann"]> ∅).

Definition stored_username_only : Storage :=
  <["username" := "ann"]> ∅.

Definition ok_response : Response Body :=
  mkResponse 200%Z
    (Some (mkBody (JBool true) (JStr "t0") (JStr "ann") JUndefined)).

Definition ok_body : Body :=
  mkBody (JBool true) (JStr "t0") (JStr "ann") JUndefined.

Definition refused_response : Response Body :=
  mkResponse 200%Z
    (Some (mkBody (JBool false) JUndefined JUndefined (JStr "Invalid credentials"))).

Definition unauthorized_response : Response Body :=
  mkResponse 401%Z
    (Some (mkBody (JBool false) JUndefined JUndefined (JStr "Invalid token"))).

Definition unauthorized : JsError :=
  mkError (Some unauthorized_response) (JStr "Request failed with status code 401").

Definition server_error : JsError :=
  mkError (Some (mkResponse 500%Z None))
          (JStr "Request failed with status code 500").

Definition ann_env : Server.Fresh := Server.mkFresh "u-1" "s4lt" 1000%Z.

Definition ann_store : list Server.User :=
  (Server.register Server.demo_kdf ann_env "a@x.com" "a" "pw123456" []).2.

Definition ann : Server.User :=
  Server.mkUser "u-1" "a@x.com" "a"
                (Server.hashpw Server.demo_kdf "s4lt" "pw123456") 1000%Z.

End Examples.

(** ** The other handlers of the login page ([LoginPage.jsx]) *)
Module LoginForm.

Import LoginPage.

Definition setIsLogin (b : bool) (st : State) : State :=
  mkState b (loading st) (error_msg st) (formData st).

Definition setFormData (fd : FormData) (st : State) : State :=
  mkState (isLogin st) (loading st) (error_msg st) fd.

(** [onClick] of the button under the form:
    [setIsLogin(!isLogin); setError('')]. *)
Definition toggleMode (st : State) : State :=
  setError (JStr "") (setIsLogin (negb (isLogin st)) st).

(** [onChange] of the three inputs:
    [setFormData({ ...formData, field: e.target.value })]. *)
Definition changeUsername (v : string) (st : State) : State :=
  setFormData
    (mkFormData (fd_email (formData st)) (fd_password (formData st)) v) st.

Definition changeEmail (v : string) (st : State) : State :=
  setFormData
    (mkFormData v (fd_password (formData st)) (fd_username (formData st))) st.

Definition changePassword (v : string) (st : State) : State :=
  setFormData
    (mkFormData (fd_email (formData st)) v (fd_username (formData st))) st.

(** The body the server sent, whether axios resolved or rejected:
    [response.data], respectively [err.response?.data]. *)
Definition server_body (res : Settled (Response Body)) : option Body :=
  match res with
  | Fulfilled r => data r
  | Rejected err => match response err with
                    | Some r => data r
                    | None => None
                    end
  end.

End LoginForm.

(** ** The slider and the life of a mounted dashboard
    ([DashboardPage.jsx]) *)
Module DashboardSession.

Import DashboardPage.

Definition setDateRange (v : list Z) (st : State) : State :=
  mkState (loading st) (overview st) (assets st) (rewardsHistory st)
          (performance st) v (selectedAssets st).

(** [<Slider value={dateRange} onValueChange={setDateRange}
    min={7} max={90} step={1} />]: one thumb, whole values within the
    bounds. *)
Definition slider_min : Z := 7.
Definition slider_max : Z := 90.

(** The states a mounted dashboard goes through: it starts from the
    [useState] defaults; the effect hook runs on mount and after each
    change of [dateRange], with any storage and any result of the
    requests; the slider replaces [dateRange].  No other setter is
    called anywhere in the component. *)
Inductive reachable : State → Prop :=
| reach_initial : reachable initial
| reach_effect api st ls res :
    reachable st → reachable (outcome (useEffect api st ls) res).1.1
| reach_slider st d :
    reachable st → (slider_min ≤ d ≤ slider_max)%Z →
    reachable (setDateRange [d] st).

(** The targets of the navigations among some effects. *)
Definition navigations (effs : list Effect) : list string :=
  omap (λ e, match e with Navigate p => Some p | ConsoleError _ _ => None end)
       effs.

End DashboardSession.

(** ** The four requests in flight and [Promise.all]
    ([DashboardPage.jsx]) *)
Module PromiseAll.

Import DashboardPage.

(** A request in flight: the instant at which axios settles it, and
    how.  axios rejects a response whose status is not 2xx with an error
    that carries the response. *)
Record Pending (D : Type) : Type := mkPending {
  settles_at : nat;
  settles_as : Settled (Response D)
}.
Arguments mkPending {D} _ _.
Arguments settles_at {D} _.
Arguments settles_as {D} _.

(** The argument of [Promise.all] in [fetchDashboardData]. *)
Record InFlight : Type := mkInFlight {
  overviewReq : Pending json;
  assetsReq : Pending (list Asset);
  rewardsReq : Pending (list json);
  perfReq : Pending (list json)
}.

(** One step of [Promise.all] along its array: the values so far while
    every promise fulfilled, otherwise the rejection that came first in
    time (the earlier in the array among equal instants). *)
Definition all_step {A D : Type} (acc : nat * JsError + A) (p : Pending D)
  : nat * JsError + A * Response D :=
  match acc, settles_as p with
  | inr a, Fulfilled b => inr (a, b)
  | inr _, Rejected e => inl (settles_at p, e)
  | inl x, Fulfilled _ => inl x
  | inl x, Rejected e =>
      inl (if (settles_at p <? x.1)%nat then (settles_at p, e) else x)
  end.

(** [await Promise.all([...])]: the four responses when all requests
    fulfil, otherwise the reason of the first request to reject; the
    rejections after it are dropped. *)
Definition promise_all (f : InFlight) : Settled Responses :=
  match all_step (all_step (all_step (all_step (inr tt) (overviewReq f))
                                     (assetsReq f))
                           (rewardsReq f))
                 (perfReq f) with
  | inl (_, e) => Rejected e
  | inr (tt, o, a, r, p) => Fulfilled (mkResponses o a r p)
  end.

Definition rejection {D : Type} (p : Pending D) : option (nat * JsError) :=
  match settles_as p with
  | Rejected e => Some (settles_at p, e)
  | Fulfilled _ => None
  end.

(** The requests that fail, each with the instant of its failure. *)
Definition failures (f : InFlight) : list (nat * JsError) :=
  omap id [rejection (overviewReq f); rejection (assetsReq f);
           rejection (rewardsReq f); rejection (perfReq f)].


End PromiseAll.

(** ** Further concrete inputs *)
Module MoreExamples.

Import DashboardPage.

Definition two_assets : list Asset := [mkAsset "ETH" []; mkAsset "DOT" []].

Definition overview_body : json :=
  JsonObject [("total_assets", JsonNumber "2")].

Definition all_ok : Responses :=
  mkResponses (mkResponse 200%Z (Some overview_body))
              (mkResponse 200%Z (Some two_assets))
              (mkResponse 200%Z (Some []))
              (mkResponse 200%Z (Some [])).

Definition moved_and_loaded : State :=
  (outcome (useEffect "/api" (DashboardSession.setDateRange [45%Z] initial)
                      Examples.stored_session)
           (Fulfilled all_ok)).1.1.

Definition picked (selection : list string) : State :=
  mkState false (Some overview_body)
          [mkAsset "ETH" []; mkAsset "DOT" []; mkAsset "ADA" []]
          [] [] [30%Z] selection.

Definition assets_request : Request :=
  get "/api/staking/assets" [("Authorization", "Bearer t0")].

Definition network_error : JsError := mkError None (JStr "Network Error").

Definition empty_token_body : Body :=
  mkBody (JBool true) (JStr "") (JStr "ann") JUndefined.

Definition no_token_body : Body :=
  mkBody (JBool true) JUndefined (JStr "ann") JUndefined.

Definition refused_body : Body :=
  mkBody (JBool false) JUndefined JUndefined (JStr "Invalid credentials").

Definition silent_body : Body :=
  mkBody (JBool false) JUndefined JUndefined JUndefined.



End MoreExamples.

(** * Properties *)

(** ** JavaScript helpers *)
Section JsFacts.

Lemma includes_elem_of (xs : list string) (x : string) :
  includes xs x = true ↔ x ∈ xs.
Proof.
  induction xs as [|y ys IH]; simpl.
  - split; [discriminate | intros H; inversion H].
  - destruct (String.eqb_spec y x) as [->|Hne].
    + split; [intros _; left | done].
    + rewrite IH. split; [by right|].
      intros H. inversion H; subst; [congruence | done].
Qed.

Lemma filter_from_filter {A : Type} (f : A → bool) (P : A → Prop)
    `{∀ x, Decision (P x)} (out xs : list A) :
  (∀ x, f x = true ↔ P x) →
  filter_from f out xs = out ++ filter P xs.
Proof.
  intros Hf. revert out.
  induction xs as [|x xs IH]; intros out; simpl.
  - by rewrite filter_nil, app_nil_r.
  - rewrite IH. destruct (f x) eqn:Hx.
    + rewrite filter_cons_True by (by apply Hf).
      by rewrite <- app_assoc.
    + rewrite filter_cons_False; [done|].
      intros HP. apply Hf in HP. congruence.
Qed.

Lemma array_filter_filter {A : Type} (f : A → bool) (P : A → Prop)
    `{∀ x, Decision (P x)} (xs : list A) :
  (∀ x, f x = true ↔ P x) → array_filter f xs = filter P xs.
Proof. intros Hf. unfold array_filter. by rewrite (filter_from_filter f P). Qed.

Lemma truthy_getItem (ls : Storage) (key : string) :
  truthy (getItem ls key) = true ↔ ∃ s, ls !! key = Some s ∧ s ≠ "".
Proof.
  unfold getItem. destruct (ls !! key) as [s|]; simpl.
  - destruct (String.eqb_spec s "") as [->|Hne]; simpl.
    + split; [discriminate | intros (s & [= <-] & Hs); done].
    + split; [intros _; by exists s | done].
  - split; [discriminate | intros (s & Hs & _); discriminate].
Qed.

End JsFacts.

(** ** Client session manager *)
Section Client.

Import DashboardPage.

Implicit Types (st : State) (ls : Storage) (err : JsError).

(** Every request of [fetchDashboardData] carries the one header built
    from whatever [getItem('token')] returns. *)
Lemma fetch_requests_headers api st ls q :
  q ∈ fetch_requests api st ls →
  req_headers q = [("Authorization", "Bearer " +:+ to_string (getItem ls "token"))]
  ∧ req_post q = false.
Proof.
  unfold fetch_requests. intros Hq.
  repeat (apply elem_of_cons in Hq as [->|Hq]; [done|]).
  by apply elem_of_nil in Hq.
Qed.

Lemma useEffect_no_token api st ls :
  truthy (getItem ls "token") = false →
  useEffect api st ls = Finished st ls [Navigate "/"].
Proof. unfold useEffect. by intros ->. Qed.

Lemma useEffect_token api st ls :
  truthy (getItem ls "token") = true →
  useEffect api st ls = fetchDashboardData api st ls.
Proof. unfold useEffect. by intros ->. Qed.

Lemma is_401_response err r :
  response err = Some r → status r = 401%Z → is_401 err = true.
Proof. unfold is_401. intros -> ->. done. Qed.

Lemma on_error_401 st ls err :
  is_401 err = true →
  on_error st ls err
  = (st, removeItem "token" ls,
     [ConsoleError "Error fetching dashboard data:" err; Navigate "/"]).
Proof. unfold on_error. by intros ->. Qed.

Lemma on_error_other st ls err :
  is_401 err = false →
  on_error st ls err = (st, ls, [ConsoleError "Error fetching dashboard data:" err]).
Proof. unfold on_error. by intros ->. Qed.

(** A [TypeError] raised inside the [try] block carries no response. *)
Lemma try_body_error st rs err :
  snd (try_body st rs) = Some err → is_401 err = false.
Proof.
  unfold try_body.
  repeat (case_match; simpl); intros [= <-]; done.
Qed.

(** The outcome of [fetchDashboardData] in terms of the error caught. *)
Lemma fetch_outcome_caught api st ls res err :
  caught st res = Some err →
  ∃ st', outcome (fetchDashboardData api st ls) res = on_error st' ls err
         ∧ (∀ e, res = Rejected e → st' = st).
Proof.
  destruct res as [rs|e]; simpl.
  - intros Hc. destruct (try_body st rs) as [st' o] eqn:Ht.
    simpl in Hc. subst o. exists st'. split; [done|]. intros e; discriminate.
  - intros [= ->]. exists st. split; [done|]. done.
Qed.

(** C10: with no asset selected the dashboard's filter yields the asset
    list unchanged; otherwise it yields, in the original order, exactly
    the assets whose [asset_symbol] is among the selected ones. *)
Theorem C10_filteredAssets st :
  filteredAssets st = filteredAssets_spec (selectedAssets st) (assets st)
  ∧ filteredAssets st `sublist_of` assets st
  ∧ ∀ a, a ∈ filteredAssets st ↔
         a ∈ assets st
         ∧ (selectedAssets st = [] ∨ asset_symbol a ∈ selectedAssets st).
Proof.
  assert (filteredAssets st = filteredAssets_spec (selectedAssets st) (assets st))
    as Heq.
  { unfold filteredAssets, filteredAssets_spec.
    destruct (selectedAssets st) as [|s sel] eqn:Hsel; simpl; [done|].
    apply array_filter_filter. intros a.
    exact (includes_elem_of (s :: sel) (asset_symbol a)). }
  split; [exact Heq|]. rewrite Heq. unfold filteredAssets_spec.
  case_decide as Hsel.
  - split; [done|]. intros a. split; [intros Ha; split; [done | by left]|].
    by intros [Ha _].
  - split; [apply sublist_filter|].
    intros a. rewrite list_elem_of_filter. split.
    + intros [Hs Ha]. split; [done | by right].
    + intros [Ha [Hnil|Hs]]; [done | by split].
Qed.

(** C9: on a 401 the dashboard's error handler removes the ['token'] key
    only, the stored ['username'] and every other key stay, whereas the
    logout action removes both ['token'] and ['username']. *)
Theorem C9_unauthorized_removes_token_only api st ls err r :
  response err = Some r →
  status r = 401%Z →
  let ls401 := (outcome (fetchDashboardData api st ls) (Rejected err)).1.2 in
  let lsout := (handleLogout st ls).1.2 in
  ls401 = delete "token" ls
  ∧ ls401 !! "token" = None
  ∧ ls401 !! "username" = ls !! "username"
  ∧ (∀ k, k ≠ "token" → ls401 !! k = ls !! k)
  ∧ lsout = delete "username" (delete "token" ls)
  ∧ lsout !! "token" = None
  ∧ lsout !! "username" = None
  ∧ (∀ k, k ≠ "token" → k ≠ "username" → lsout !! k = ls !! k).
Proof.
  intros Hr Hs. simpl.
  rewrite (on_error_401 st ls err) by by eapply is_401_response.
  unfold removeItem. simpl.
  repeat split.
  - apply lookup_delete_eq.
  - by apply lookup_delete_ne.
  - intros k Hk. by apply lookup_delete_ne.
  - rewrite lookup_delete_ne by done. apply lookup_delete_eq.
  - apply lookup_delete_eq.
  - intros k Hk1 Hk2. by rewrite !lookup_delete_ne.
Qed.

(** C8: when the dashboard page is entered with no token in
    browser-local storage, the effect hook navigates to ["/"], which the
    router maps to the login page, and sends no request at all. *)
Theorem C8_no_token_redirects api st ls :
  ls !! "token" = None →
  useEffect api st ls = Finished st ls [Navigate "/"]
  ∧ requests (useEffect api st ls) = []
  ∧ (∀ res, outcome (useEffect api st ls) res = (st, ls, [Navigate "/"]))
  ∧ App.route "/" = App.Element App.LoginPage.
Proof.
  intros Hnone.
  rewrite useEffect_no_token by (unfold getItem; by rewrite Hnone).
  done.
Qed.

(** What the [catch] block of [fetchDashboardData] does with a 401 it
    receives: it removes the stored token and navigates to ["/"], the
    login page. *)
Lemma catch_block_401_forces_logout api st ls err r :
  response err = Some r →
  status r = 401%Z →
  let '(st', ls', effs) := outcome (fetchDashboardData api st ls) (Rejected err) in
  st' = st
  ∧ ls' = removeItem "token" ls
  ∧ getItem ls' "token" = JNull
  ∧ effs = [ConsoleError "Error fetching dashboard data:" err; Navigate "/"]
  ∧ App.route "/" = App.Element App.LoginPage
  ∧ (truthy (getItem ls "token") = true →
     outcome (useEffect api st ls) (Rejected err) = (st', ls', effs)).
Proof.
  intros Hr Hs. simpl.
  rewrite (on_error_401 st ls err) by by eapply is_401_response.
  repeat split.
  - unfold getItem, removeItem. by rewrite lookup_delete_eq.
  - intros Ht. rewrite useEffect_token by done. simpl.
    by rewrite (on_error_401 st ls err) by by eapply is_401_response.
Qed.

Lemma truthy_js_or_r a b : truthy b = true → truthy (js_or a b) = true.
Proof. unfold js_or. by destruct (truthy a) eqn:Ha. Qed.

Lemma truthy_catch_message err : truthy (LoginPage.catch_message err) = true.
Proof. unfold LoginPage.catch_message. by do 2 apply truthy_js_or_r. Qed.

(** A submission that does not take the success branch ends with an
    alert on the form and nothing else changed. *)
Lemma handleSubmit_rejected api (lst : LoginPage.State) ls res :
  LoginPage.accepted res = false →
  ∃ v, truthy v = true
       ∧ outcome (LoginPage.handleSubmit api lst ls) res
         = (LoginPage.mkState (LoginPage.isLogin lst) false v
                              (LoginPage.formData lst), ls, []).
Proof.
  intros Hacc. simpl. unfold LoginPage.try_body.
  destruct res as [r|e]; simpl in Hacc.
  - destruct (data r) as [d|].
    + rewrite Hacc. eexists. split; [|reflexivity].
      by apply truthy_js_or_r.
    + eexists. split; [|reflexivity]. apply truthy_catch_message.
  - eexists. split; [|reflexivity]. apply truthy_catch_message.
Qed.

(** C5: after a response whose [success] is truthy the login page has
    stored the returned token and username in browser-local storage, and
    every request the dashboard then sends carries the header
    [Authorization: Bearer <stored token>]; with a non-empty token the
    four protected requests are indeed sent. *)
Theorem C5_success_persists_and_attaches api (lst : LoginPage.State) ls r d :
  data r = Some d →
  truthy (success d) = true →
  let '(_, ls', effs) := outcome (LoginPage.handleSubmit api lst ls) (Fulfilled r) in
  ls' !! "token" = Some (to_string (token d))
  ∧ ls' !! "username" = Some (to_string (username d))
  ∧ effs = [Navigate "/dashboard"]
  ∧ (∀ api' st q,
       q ∈ requests (useEffect api' st ls') ∨ q ∈ requests (fetchDashboardData api' st ls') →
       req_headers q = [("Authorization", "Bearer " +:+ to_string (token d))])
  ∧ (to_string (token d) ≠ "" →
     ∀ api' st, requests (useEffect api' st ls') = fetch_requests api' st ls'
                ∧ length (requests (useEffect api' st ls')) = 4%nat).
Proof.
  intros Hd Hs. simpl. unfold LoginPage.try_body. rewrite Hd, Hs.
  set (ls' := setItem "username" (username d) (setItem "token" (token d) ls)).
  assert (ls' !! "token" = Some (to_string (token d))) as Htok.
  { unfold ls', setItem. rewrite lookup_insert_ne by done. apply lookup_insert_eq. }
  assert (getItem ls' "token" = JStr (to_string (token d))) as Hget.
  { unfold getItem. by rewrite Htok. }
  split; [exact Htok|]. split; [apply lookup_insert_eq|]. split; [done|]. split.
  - intros api' st q Hq.
    assert (q ∈ fetch_requests api' st ls') as Hq'.
    { destruct Hq as [Hq|Hq]; [|exact Hq].
      unfold useEffect in Hq. destruct (negb _); simpl in Hq; [|exact Hq].
      by apply elem_of_nil in Hq. }
    apply fetch_requests_headers in Hq' as [-> _]. by rewrite Hget.
  - intros Hne api' st. rewrite useEffect_token; [done|].
    apply truthy_getItem. eauto.
Qed.

(** C7, as stated, fails on the dashboard: a fetch error other than a
    401 is written to the console only; the component state, and with it
    what the page shows, is what it was before the request. *)
Lemma C7_dashboard_failure_not_displayed :
  let err := mkError (Some (mkResponse 500%Z None))
                     (JStr "Request failed with status code 500") in
  let ls : Storage := <["token" := "t0"]> (<["username" := "ann"]> ∅) in
  let st := DashboardPage.initial in
  is_401 err = false
  ∧ outcome (fetchDashboardData "/api" st ls) (Rejected err)
    = (st, ls, [ConsoleError "Error fetching dashboard data:" err])
  ∧ alert (render st) = None
  ∧ ¬ (∀ api st ls err,
         is_401 err = false →
         ∃ msg, alert (render (outcome (fetchDashboardData api st ls)
                                       (Rejected err)).1.1) = Some msg).
Proof.
  repeat split.
  intros H.
  destruct (H "/api" DashboardPage.initial ∅
               (mkError (Some (mkResponse 500%Z None))
                        (JStr "Request failed with status code 500"))
               eq_refl) as [msg Hmsg].
  discriminate Hmsg.
Qed.

(** C7 (amended): a login or signup that fails, by a response without
    truthy [success] or by any rejected request, is shown in the form's
    alert with the submit button enabled again, storage untouched and no
    navigation.  A dashboard fetch failure other than a 401 is logged to
    the console and not displayed; it too leaves storage untouched and
    navigates nowhere. *)
Theorem C7_other_failures api (lst : LoginPage.State) st ls lres dres err :
  LoginPage.accepted lres = false →
  caught st dres = Some err →
  is_401 err = false →
  let '(lst', lls, leffs) := outcome (LoginPage.handleSubmit api lst ls) lres in
  let '(st', dls, deffs) := outcome (fetchDashboardData api st ls) dres in
  (∃ msg, LoginPage.alert (LoginPage.render lst') = Some msg)
  ∧ LoginPage.submit_disabled (LoginPage.render lst') = false
  ∧ lls = ls
  ∧ leffs = []
  ∧ dls = ls
  ∧ deffs = [ConsoleError "Error fetching dashboard data:" err]
  ∧ alert (render st') = None
  ∧ (∀ e, dres = Rejected e → st' = st).
Proof.
  intros Hacc Hc H401.
  destruct (handleSubmit_rejected api lst ls lres Hacc) as (v & Hv & ->).
  destruct (fetch_outcome_caught api st ls dres err Hc) as (st' & -> & Hst).
  rewrite on_error_other by done.
  split.
  { unfold LoginPage.render; simpl. rewrite Hv. eauto. }
  repeat split; [|exact Hst].
  unfold alert. by destruct (render st').
Qed.

End Client.

(** ** Credential store and session tokens *)
Section ServerFacts.

Import Server.

Variable kdf : nat → string → string → string.
Variable sign : string → Claims → string.

Implicit Types (store : list User) (u : User) (t : Token) (srv : State).

Lemma checkpw_hashpw salt password :
  checkpw kdf password (hashpw kdf salt password) = true.
Proof. unfold checkpw, hashpw. simpl. apply String.eqb_refl. Qed.

Lemma find_user_Some email store u :
  find_user email store = Some u → u ∈ store ∧ user_email u = email.
Proof.
  unfold find_user. intros H. apply find_some in H as [Hin Heq].
  split; [by apply list_elem_of_In | by apply String.eqb_eq].
Qed.

Lemma find_user_None email store :
  find_user email store = None ↔ ∀ u, u ∈ store → user_email u ≠ email.
Proof.
  unfold find_user. split.
  - intros H u Hu Heq. apply list_elem_of_In in Hu.
    pose proof (find_none _ _ H u Hu) as Hf. simpl in Hf.
    apply String.eqb_neq in Hf. done.
  - intros H. destruct (find _ store) as [u|] eqn:Hf; [|done].
    apply find_some in Hf as [Hin Heq]. apply String.eqb_eq in Heq.
    apply list_elem_of_In in Hin. by destruct (H u Hin).
Qed.

Lemma records_for_elem_of email store u :
  u ∈ records_for email store ↔ u ∈ store ∧ user_email u = email.
Proof.
  unfold records_for. rewrite !list_elem_of_In, filter_In.
  by rewrite String.eqb_eq.
Qed.

Lemma records_for_nil email store :
  records_for email store = [] ↔ find_user email store = None.
Proof.
  rewrite find_user_None. split.
  - intros Hnil u Hu Heq.
    assert (u ∈ records_for email store) as Hin by by apply records_for_elem_of.
    rewrite Hnil in Hin. by apply elem_of_nil in Hin.
  - intros H. destruct (records_for email store) as [|u l] eqn:Hr; [done|].
    assert (u ∈ records_for email store) as Hin by (rewrite Hr; left).
    apply records_for_elem_of in Hin as [Hin Heq]. by destruct (H u Hin).
Qed.

Lemma records_for_snoc email store u :
  records_for email (store ++ [u])
  = records_for email store
    ++ (if String.eqb (user_email u) email then [u] else []).
Proof. unfold records_for. by rewrite List.filter_app. Qed.

(** Under the invariant, lookup by email finds the very record stored. *)
Lemma find_user_stored store u :
  one_per_email store → u ∈ store →
  find_user (user_email u) store = Some u.
Proof.
  intros Hinv Hu.
  destruct (find_user (user_email u) store) as [u'|] eqn:Hf.
  - apply find_user_Some in Hf as [Hu' Heq].
    assert (u ∈ records_for (user_email u) store) as H1
      by by apply records_for_elem_of.
    assert (u' ∈ records_for (user_email u) store) as H2
      by by apply records_for_elem_of.
    specialize (Hinv (user_email u)).
    destruct (records_for (user_email u) store) as [|x [|y l]];
      [by apply elem_of_nil in H1| |simpl in Hinv; lia].
    apply list_elem_of_singleton in H1, H2. congruence.
  - rewrite find_user_None in Hf. by destruct (Hf u Hu).
Qed.

Lemma register_duplicate env email username password store :
  (∃ u, u ∈ store ∧ user_email u = email) →
  register kdf env email username password store = (inl DuplicateEmail, store).
Proof.
  intros (u & Hu & Heq). unfold register.
  destruct (find_user email store) eqn:Hf; [done|].
  rewrite find_user_None in Hf. by destruct (Hf u Hu).
Qed.

Lemma register_fresh env email username password store :
  (∀ u, u ∈ store → user_email u ≠ email) →
  register kdf env email username password store
  = (inr (mkUser (fresh_id env) email username
                 (hashpw kdf (fresh_salt env) password) (fresh_now env)),
     store ++ [mkUser (fresh_id env) email username
                      (hashpw kdf (fresh_salt env) password) (fresh_now env)]).
Proof.
  intros H. apply find_user_None in H. unfold register. by rewrite H.
Qed.

(** After [register], whatever its result, the email has a record. *)
Lemma register_records env email username password store :
  (1 ≤ length (records_for email
                 (register kdf env email username password store).2))%nat.
Proof.
  unfold register. destruct (find_user email store) as [u|] eqn:Hf; simpl.
  - destruct (records_for email store) eqn:Hr; [|simpl; lia].
    apply records_for_nil in Hr. congruence.
  - rewrite records_for_snoc. simpl. rewrite String.eqb_refl.
    rewrite length_app. simpl. lia.
Qed.

(** [register] never removes a record. *)
Lemma register_monotone env email username password store e :
  (length (records_for e store)
   ≤ length (records_for e (register kdf env email username password store).2))%nat.
Proof.
  unfold register. destruct (find_user email store); simpl; [done|].
  rewrite records_for_snoc, length_app. lia.
Qed.

Lemma register_one_per_email env email username password store :
  one_per_email store →
  one_per_email (register kdf env email username password store).2.
Proof.
  intros Hinv e. unfold register.
  destruct (find_user email store) as [u|] eqn:Hf; simpl; [apply Hinv|].
  rewrite records_for_snoc, length_app. simpl.
  destruct (String.eqb_spec email e) as [->|Hne]; simpl.
  - apply records_for_nil in Hf. rewrite Hf. simpl. lia.
  - specialize (Hinv e). lia.
Qed.

Lemma register_all_snoc reqs r store :
  register_all kdf (reqs ++ [r]) store
  = (register kdf (su_env r) (su_email r) (su_username r) (su_password r)
              (register_all kdf reqs store)).2.
Proof. unfold register_all. by rewrite fold_left_app. Qed.

Lemma register_all_one_per_email reqs :
  one_per_email (register_all kdf reqs []).
Proof.
  induction reqs as [|r reqs IH] using rev_ind.
  - intros e. simpl. lia.
  - rewrite register_all_snoc. by apply register_one_per_email.
Qed.

Lemma register_all_records reqs r :
  r ∈ reqs →
  length (records_for (su_email r) (register_all kdf reqs [])) = 1%nat.
Proof.
  intros Hr.
  pose proof (register_all_one_per_email reqs (su_email r)) as Hle.
  enough (1 ≤ length (records_for (su_email r) (register_all kdf reqs [])))%nat
    by lia.
  clear Hle. induction reqs as [|x reqs IH] using rev_ind.
  - by apply elem_of_nil in Hr.
  - rewrite register_all_snoc. apply elem_of_app in Hr as [Hr|Hr].
    + etrans; [by apply IH | apply register_monotone].
    + apply list_elem_of_singleton in Hr as ->. apply register_records.
Qed.

Lemma validate_issue key now now' u :
  (now' < now + token_lifetime)%Z →
  validate sign key now' (issue sign key now u) = inr (identity_of u).
Proof.
  intros Hlt. unfold validate, issue. rewrite String.eqb_refl. simpl.
  by rewrite (proj2 (Z.ltb_lt _ _) Hlt).
Qed.

(** C1: [validate] succeeds, returning the embedded identity, exactly
    when the token's signature verifies against the server secret and
    its expiry has not elapsed.  A correctly signed token whose expiry
    has passed fails with [TokenExpired]; a malformed token and a token
    whose signature does not verify fail with [TokenInvalid]. *)
Theorem C1_validate_outcomes key now t :
  (∀ ident,
     validate sign key now t = inr ident ↔
     ∃ c s, t = Signed c s ∧ s = sign key c ∧ (now < claim_exp c)%Z
            ∧ ident = claim_identity c)
  ∧ (validate sign key now t = inl TokenExpired ↔
     ∃ c s, t = Signed c s ∧ s = sign key c ∧ (claim_exp c ≤ now)%Z)
  ∧ (validate sign key now t = inl TokenInvalid ↔
     (∃ raw, t = Malformed raw) ∨ ∃ c s, t = Signed c s ∧ s ≠ sign key c)
  ∧ (∀ e, validate sign key now t = inl e → e = TokenExpired ∨ e = TokenInvalid).
Proof.
  destruct t as [raw|c s]; simpl.
  - repeat split.
    + discriminate.
    + intros (c & s & [=] & _).
    + discriminate.
    + intros (c & s & [=] & _).
    + intros _. left. by exists raw.
    + intros e [= <-]. by right.
  - destruct (String.eqb_spec s (sign key c)) as [Heq|Hne];
      [destruct (Z.ltb_spec now (claim_exp c)) as [Hlt|Hge]|].
    + repeat split.
      * intros [= <-]. by exists c, s.
      * intros (c' & s' & [= <- <-] & _ & _ & ->). done.
      * discriminate.
      * intros (c' & s' & [= <- <-] & _ & Hle). lia.
      * discriminate.
      * intros [(raw & [=])|(c' & s' & [= <- <-] & Hs)]. done.
      * discriminate.
    + repeat split.
      * discriminate.
      * intros (c' & s' & [= <- <-] & _ & Hlt & _). lia.
      * intros _. by exists c, s.
      * discriminate.
      * intros [(raw & [=])|(c' & s' & [= <- <-] & Hs)]. done.
      * intros e [= <-]. by left.
    + repeat split.
      * discriminate.
      * intros (c' & s' & [= <- <-] & Hs & _). done.
      * discriminate.
      * intros (c' & s' & [= <- <-] & Hs & _). done.
      * intros _. right. by exists c, s.
      * intros e [= <-]. by right.
Qed.

(** C2: [register] fails with [DuplicateEmail], leaving the store as it
    was, when a user with the email exists; otherwise it appends one new
    user holding a salted hash of the password (fresh salt, cost 12,
    accepted by the hash comparison) and returns it.  The invariant of
    one record per email is preserved, holds of every store built by
    registrations from the empty store, and each email registered there
    has exactly one record. *)
Theorem C2_register_unique_email env email username password store :
  ((∃ u, u ∈ store ∧ user_email u = email) →
   register kdf env email username password store = (inl DuplicateEmail, store))
  ∧ ((∀ u, u ∈ store → user_email u ≠ email) →
     ∃ u, register kdf env email username password store = (inr u, store ++ [u])
          ∧ user_email u = email
          ∧ user_name u = username
          ∧ user_hash u = hashpw kdf (fresh_salt env) password
          ∧ hash_salt (user_hash u) = fresh_salt env
          ∧ hash_cost (user_hash u) = 12%nat
          ∧ checkpw kdf password (user_hash u) = true)
  ∧ (one_per_email store →
     one_per_email (register kdf env email username password store).2
     ∧ length (records_for email
                 (register kdf env email username password store).2) = 1%nat)
  ∧ (∀ reqs, one_per_email (register_all kdf reqs [])
             ∧ ∀ r, r ∈ reqs →
                    length (records_for (su_email r) (register_all kdf reqs []))
                    = 1%nat).
Proof.
  split; [apply register_duplicate|].
  split.
  { intros Hfresh. eexists. split; [by apply register_fresh|].
    simpl. repeat split. apply checkpw_hashpw. }
  split.
  { intros Hinv.
    pose proof (register_one_per_email env email username password store Hinv)
      as Hinv'.
    split; [exact Hinv'|].
    pose proof (register_records env email username password store).
    specialize (Hinv' email). lia. }
  intros reqs. split; [apply register_all_one_per_email|].
  intros r. apply register_all_records.
Qed.

Lemma find_user_snoc email store u :
  find_user email (store ++ [u])
  = match find_user email store with
    | Some v => Some v
    | None => if String.eqb (user_email u) email then Some u else None
    end.
Proof.
  unfold find_user. induction store as [|v store IH]; simpl; [done|].
  by destruct (String.eqb (user_email v) email).
Qed.

(** A user just registered is verified with the password registered. *)
Lemma register_then_verify env email username password store u store' :
  register kdf env email username password store = (inr u, store') →
  verify kdf email password store' = inr u.
Proof.
  unfold register. destruct (find_user email store) eqn:Hf; [done|].
  intros [= <- <-]. unfold verify.
  rewrite find_user_snoc, Hf. cbn [user_email user_hash].
  rewrite String.eqb_refl. cbn [user_hash]. by rewrite checkpw_hashpw.
Qed.

(** C3: [verify] fails, and then with [InvalidCredentials], exactly when
    no user matches the email or the hash comparison fails.  For a user
    in the store, the right email and password yield that user, and the
    token then issued is accepted by [validate] at any time before its
    expiry, with that user's identity; the password a user registered
    with is such a password. *)
Theorem C3_verify_then_validate store u password now now' key :
  one_per_email store →
  u ∈ store →
  checkpw kdf password (user_hash u) = true →
  (now' < now + token_lifetime)%Z →
  (∀ email pw,
     (verify kdf email pw store = inl InvalidCredentials ↔
      find_user email store = None
      ∨ ∃ v, find_user email store = Some v
             ∧ checkpw kdf pw (user_hash v) = false)
     ∧ (∀ e, verify kdf email pw store = inl e → e = InvalidCredentials))
  ∧ verify kdf (user_email u) password store = inr u
  ∧ validate sign key now' (issue sign key now u) = inr (identity_of u)
  ∧ login kdf sign now (user_email u) password (mkState store key)
    = (inr (issue sign key now u, user_name u), mkState store key)
  ∧ (∀ env email username pw store0 v,
       register kdf env email username pw store0 = (inr v, store) →
       verify kdf email pw store = inr v).
Proof.
  intros Hinv Hu Hpw Hlt.
  assert (verify kdf (user_email u) password store = inr u) as Hv.
  { unfold verify. rewrite find_user_stored by done. by rewrite Hpw. }
  split; [|split; [exact Hv|split; [by apply validate_issue|split]]];
    [| |intros env email username pw store0 v; apply register_then_verify].
  - intros email pw. unfold verify.
    destruct (find_user email store) as [v|] eqn:Hf.
    + destruct (checkpw kdf pw (user_hash v)) eqn:Hc.
      * split; [|discriminate]. split; [discriminate|].
        intros [[=]|(v' & [= <-] & Hc')]. congruence.
      * split; [|by intros e [= <-]]. split; [|done].
        intros _. right. by exists v.
    + split; [|by intros e [= <-]]. split; [by left | done].
  - unfold login. simpl. by rewrite Hv.
Qed.

(** C4: what [validate] answers depends on the token, the server secret
    and the current time only, and checking a token leaves the server
    state as it was: a second check of a token that is still unexpired
    returns the same identity as the first. *)
Theorem C4_validate_pure now now' t srv srv' :
  authorize sign now t srv = (validate sign (secret srv) now t, srv)
  ∧ (secret srv' = secret srv →
     (authorize sign now t srv').1 = (authorize sign now t srv).1)
  ∧ (authorize sign now t (authorize sign now t srv).2
     = authorize sign now t srv)
  ∧ (∀ c s ident,
       t = Signed c s →
       (authorize sign now t srv).1 = inr ident →
       (now' < claim_exp c)%Z →
       authorize sign now' t (authorize sign now t srv).2 = (inr ident, srv)).
Proof.
  unfold authorize. simpl. split; [done|]. split; [by intros ->|].
  split; [done|].
  intros c s ident -> Hv Hlt. f_equal.
  simpl in *. destruct (String.eqb s (sign (secret srv) c)); [|done].
  destruct (Z.ltb_spec now (claim_exp c)); [|done].
  by rewrite (proj2 (Z.ltb_lt _ _) Hlt).
Qed.

End ServerFacts.

(** ** The theorems at concrete inputs *)
Section Instances.

Import Examples DashboardPage.

Lemma C5_success_persists_and_attaches_witness :
  data ok_response = Some ok_body
  ∧ truthy (success ok_body) = true
  ∧ let '(_, ls', effs) :=
        outcome (LoginPage.handleSubmit "/api" LoginPage.initial ∅)
                (Fulfilled ok_response) in
    ls' !! "token" = Some "t0"
    ∧ ls' !! "username" = Some "ann"
    ∧ effs = [Navigate "/dashboard"]
    ∧ (∀ api' st q,
         q ∈ requests (useEffect api' st ls')
         ∨ q ∈ requests (fetchDashboardData api' st ls') →
         req_headers q = [("Authorization", "Bearer t0")])
    ∧ ("t0" ≠ "" →
       ∀ api' st, requests (useEffect api' st ls') = fetch_requests api' st ls'
                  ∧ length (requests (useEffect api' st ls')) = 4%nat).
Proof.
  split; [reflexivity|]. split; [reflexivity|].
  exact (C5_success_persists_and_attaches "/api" LoginPage.initial ∅
           ok_response ok_body eq_refl eq_refl).
Defined.

Lemma catch_block_401_forces_logout_example :
  response unauthorized = Some unauthorized_response
  ∧ status unauthorized_response = 401%Z
  ∧ let '(st', ls', effs) :=
        outcome (fetchDashboardData "/api" initial stored_session)
                (Rejected unauthorized) in
    st' = initial
    ∧ ls' = removeItem "token" stored_session
    ∧ getItem ls' "token" = JNull
    ∧ effs = [ConsoleError "Error fetching dashboard data:" unauthorized;
              Navigate "/"]
    ∧ App.route "/" = App.Element App.LoginPage
    ∧ (truthy (getItem stored_session "token") = true →
       outcome (useEffect "/api" initial stored_session) (Rejected unauthorized)
       = (st', ls', effs)).
Proof.
  split; [reflexivity|]. split; [reflexivity|].
  exact (catch_block_401_forces_logout "/api" initial stored_session
           unauthorized unauthorized_response eq_refl eq_refl).
Defined.

Lemma C7_other_failures_witness :
  LoginPage.accepted (Fulfilled refused_response) = false
  ∧ caught initial (Rejected server_error) = Some server_error
  ∧ is_401 server_error = false
  ∧ let '(lst', lls, leffs) :=
        outcome (LoginPage.handleSubmit "/api" LoginPage.initial stored_session)
                (Fulfilled refused_response) in
    let '(st', dls, deffs) :=
        outcome (fetchDashboardData "/api" initial stored_session)
                (Rejected server_error) in
    (∃ msg, LoginPage.alert (LoginPage.render lst') = Some msg)
    ∧ LoginPage.submit_disabled (LoginPage.render lst') = false
    ∧ lls = stored_session
    ∧ leffs = []
    ∧ dls = stored_session
    ∧ deffs = [ConsoleError "Error fetching dashboard data:" server_error]
    ∧ alert (render st') = None
    ∧ (∀ e, Rejected (A := Responses) server_error = Rejected e → st' = initial).
Proof.
  split; [reflexivity|]. split; [reflexivity|]. split; [reflexivity|].
  exact (C7_other_failures "/api" LoginPage.initial initial stored_session
           (Fulfilled refused_response) (Rejected server_error) server_error
           eq_refl eq_refl eq_refl).
Defined.

Lemma C8_no_token_redirects_witness :
  stored_username_only !! "token" = None
  ∧ useEffect "/api" initial stored_username_only
    = Finished initial stored_username_only [Navigate "/"]
  ∧ requests (useEffect "/api" initial stored_username_only) = []
  ∧ (∀ res, outcome (useEffect "/api" initial stored_username_only) res
            = (initial, stored_username_only, [Navigate "/"]))
  ∧ App.route "/" = App.Element App.LoginPage.
Proof.
  split; [reflexivity|].
  exact (C8_no_token_redirects "/api" initial stored_username_only eq_refl).
Defined.

Lemma C9_unauthorized_removes_token_only_witness :
  response unauthorized = Some unauthorized_response
  ∧ status unauthorized_response = 401%Z
  ∧ let ls401 :=
        (outcome (fetchDashboardData "/api" initial stored_session)
                 (Rejected unauthorized)).1.2 in
    let lsout := (handleLogout initial stored_session).1.2 in
    ls401 = delete "token" stored_session
    ∧ ls401 !! "token" = None
    ∧ ls401 !! "username" = stored_session !! "username"
    ∧ (∀ k, k ≠ "token" → ls401 !! k = stored_session !! k)
    ∧ lsout = delete "username" (delete "token" stored_session)
    ∧ lsout !! "token" = None
    ∧ lsout !! "username" = None
    ∧ (∀ k, k ≠ "token" → k ≠ "username" → lsout !! k = stored_session !! k).
Proof.
  split; [reflexivity|]. split; [reflexivity|].
  exact (C9_unauthorized_removes_token_only "/api" initial stored_session
           unauthorized unauthorized_response eq_refl eq_refl).
Defined.

Import Server.

Lemma ann_store_one_per_email : one_per_email ann_store.
Proof.
  intros e. unfold ann_store, records_for. cbn -[String.eqb].
  destruct (String.eqb "a@x.com" e); simpl; lia.
Defined.

Lemma C3_verify_then_validate_witness :
  one_per_email ann_store
  ∧ ann ∈ ann_store
  ∧ checkpw demo_kdf "pw123456" (user_hash ann) = true
  ∧ (2000 < 1000 + token_lifetime)%Z
  ∧ (∀ email pw,
       (verify demo_kdf email pw ann_store = inl InvalidCredentials ↔
        find_user email ann_store = None
        ∨ ∃ v, find_user email ann_store = Some v
               ∧ checkpw demo_kdf pw (user_hash v) = false)
       ∧ (∀ e, verify demo_kdf email pw ann_store = inl e → e = InvalidCredentials))
  ∧ verify demo_kdf "a@x.com" "pw123456" ann_store = inr ann
  ∧ validate demo_sign "k3y" 2000 (issue demo_sign "k3y" 1000 ann)
    = inr (identity_of ann)
  ∧ login demo_kdf demo_sign 1000 "a@x.com" "pw123456" (mkState ann_store "k3y")
    = (inr (issue demo_sign "k3y" 1000 ann, "a"), mkState ann_store "k3y")
  ∧ (∀ env email username pw store0 v,
       register demo_kdf env email username pw store0 = (inr v, ann_store) →
       verify demo_kdf email pw ann_store = inr v).
Proof.
  assert (ann ∈ ann_store) as Hin by (vm_compute; left).
  assert (checkpw demo_kdf "pw123456" (user_hash ann) = true) as Hpw
    by (vm_compute; reflexivity).
  assert (2000 < 1000 + token_lifetime)%Z as Hlt by (vm_compute; reflexivity).
  split; [exact ann_store_one_per_email|]. split; [exact Hin|].
  split; [exact Hpw|]. split; [exact Hlt|].
  exact (C3_verify_then_validate demo_kdf demo_sign ann_store ann "pw123456"
           1000%Z 2000%Z "k3y" ann_store_one_per_email Hin Hpw Hlt).
Defined.

(** The scenarios of the specification's section 8, run on the model. *)
Example second_registration_fails :
  register demo_kdf (mkFresh "u-2" "p3pper" 1001%Z) "a@x.com" "b" "other" ann_store
  = (inl DuplicateEmail, ann_store).
Proof. vm_compute. reflexivity. Qed.

Example wrong_password_fails :
  verify demo_kdf "a@x.com" "pw12345" ann_store = inl InvalidCredentials.
Proof. vm_compute. reflexivity. Qed.

Example unknown_email_fails :
  verify demo_kdf "b@x.com" "pw123456" ann_store = inl InvalidCredentials.
Proof. vm_compute. reflexivity. Qed.

Example past_expiry_fails :
  let c := mkClaims (identity_of ann) 999%Z in
  validate demo_sign "k3y" 1000 (Signed c (demo_sign "k3y" c)) = inl TokenExpired.
Proof. vm_compute. reflexivity. Qed.

Example tampered_signature_fails :
  let c := mkClaims (identity_of ann) 5000%Z in
  validate demo_sign "k3y" 1000 (Signed c (demo_sign "0ther" c)) = inl TokenInvalid.
Proof. vm_compute. reflexivity. Qed.

Example malformed_token_fails :
  validate demo_sign "k3y" 1000 (Malformed "not.a.token") = inl TokenInvalid.
Proof. vm_compute. reflexivity. Qed.

Example filter_by_symbol :
  filteredAssets
    (DashboardPage.mkState false None
       [mkAsset "ETH" []; mkAsset "DOT" []; mkAsset "ADA" []; mkAsset "ETH" []]
       [] [] [30%Z] ["ETH"; "ADA"])
  = [mkAsset "ETH" []; mkAsset "ADA" []; mkAsset "ETH" []].
Proof. reflexivity. Qed.

Example filter_nothing_selected :
  filteredAssets
    (DashboardPage.mkState false None [mkAsset "ETH" []; mkAsset "DOT" []]
                           [] [] [30%Z] [])
  = [mkAsset "ETH" []; mkAsset "DOT" []].
Proof. reflexivity. Qed.

Example empty_token_redirects :
  useEffect "/api" initial (<["token" := ""]> ∅)
  = Finished initial (<["token" := ""]> ∅) [Navigate "/"].
Proof. reflexivity. Qed.

End Instances.

(** ** More about the dashboard page *)
Section DashboardFacts.

Import DashboardPage DashboardSession.

Implicit Types (st : State) (ls : Storage) (err : JsError) (rs : Responses).

(** Which fields the [try] block has written when it ends or throws. *)
Lemma try_body_fields st rs :
  let st' := (try_body st rs).1 in
  dateRange st' = dateRange st
  ∧ selectedAssets st' = selectedAssets st
  ∧ overview st'
    = match data (overviewRes rs) with
      | Some o => Some o
      | None => overview st
      end
  ∧ assets st'
    = match data (overviewRes rs), data (assetsRes rs) with
      | Some _, Some a => a
      | _, _ => assets st
      end
  ∧ rewardsHistory st'
    = match data (overviewRes rs), data (assetsRes rs), data (rewardsRes rs) with
      | Some _, Some _, Some r => r
      | _, _, _ => rewardsHistory st
      end
  ∧ performance st'
    = match data (overviewRes rs), data (assetsRes rs), data (rewardsRes rs),
            data (perfRes rs) with
      | Some _, Some _, Some _, Some p => p
      | _, _, _, _ => performance st
      end
  ∧ loading st'
    = match data (overviewRes rs), data (assetsRes rs), data (rewardsRes rs),
            data (perfRes rs) with
      | Some _, Some _, Some _, Some _ => false
      | _, _, _, _ => loading st
      end
  ∧ ((try_body st rs).2 = None ↔
     is_Some (data (overviewRes rs)) ∧ is_Some (data (assetsRes rs))
     ∧ is_Some (data (rewardsRes rs)) ∧ is_Some (data (perfRes rs))).
Proof.
  unfold try_body.
  destruct (data (overviewRes rs)) as [o|], (data (assetsRes rs)) as [a|],
    (data (rewardsRes rs)) as [r|], (data (perfRes rs)) as [p|];
    simpl; repeat split; eauto; try discriminate;
    try (intros (H1 & H2 & H3 & H4);
         first [by destruct H1 | by destruct H2 | by destruct H3 | by destruct H4]).
Qed.

(** The component state after the effect hook is the old one, or what
    the [try] block made of it. *)
Lemma effect_state api st ls res :
  (outcome (useEffect api st ls) res).1.1 = st
  ∨ ∃ rs, (outcome (useEffect api st ls) res).1.1 = (try_body st rs).1.
Proof.
  unfold useEffect. destruct (negb _); simpl; [by left|].
  destruct res as [rs|err]; simpl.
  - right. exists rs. destruct (try_body st rs) as [st' [e|]]; simpl; [|done].
    unfold on_error. by destruct (is_401 e).
  - left. unfold on_error. by destruct (is_401 err).
Qed.

Lemma useEffect_requests api st ls q :
  q ∈ requests (useEffect api st ls) →
  ∃ t, ls !! "token" = Some t ∧ t ≠ ""
       ∧ getItem ls "token" = JStr t
       ∧ q ∈ fetch_requests api st ls.
Proof.
  unfold useEffect. destruct (truthy (getItem ls "token")) eqn:Ht; simpl.
  - intros Hq. apply truthy_getItem in Ht as (t & Hl & Hne).
    exists t. repeat split; try done. unfold getItem. by rewrite Hl.
  - intros Hq. by apply elem_of_nil in Hq.
Qed.

(** What a mounted dashboard keeps true. *)
Lemma reachable_inv st :
  reachable st →
  selectedAssets st = []
  ∧ (loading st = false → is_Some (overview st))
  ∧ ∃ d, dateRange st = [d] ∧ (slider_min ≤ d ≤ slider_max)%Z.
Proof.
  induction 1 as [|api st ls res Hr (Hsel & Hov & d & Hd & Hrange)
                   |st d Hr (Hsel & Hov & _) Hrange].
  - repeat split; [discriminate|]. exists 30%Z. split; [done|].
    unfold slider_min, slider_max. lia.
  - destruct (effect_state api st ls res) as [->|[rs ->]]; [eauto 10|].
    destruct (try_body_fields st rs) as (Hd' & Hsel' & Ho & _ & _ & _ & Hl & _).
    repeat split.
    + congruence.
    + rewrite Ho, Hl.
      destruct (data (overviewRes rs)); [eauto|].
      intros Hload. by apply Hov.
    + exists d. split; [congruence | done].
  - repeat split; [done | done |]. exists d. by split.
Qed.

(** X1: the dashboard sends a request only when browser-local storage
    holds a non-empty token, and then as a body-less GET whose single
    header is [Authorization: Bearer] followed by that token. *)
Theorem protected_requests_carry_token api st ls q :
  q ∈ requests (useEffect api st ls) →
  ∃ t, ls !! "token" = Some t
       ∧ t ≠ ""
       ∧ req_headers q = [("Authorization", "Bearer " +:+ t)]
       ∧ req_post q = false
       ∧ req_body q = None.
Proof.
  intros Hq. apply useEffect_requests in Hq as (t & Hl & Hne & Hget & Hq).
  exists t. split; [done|]. split; [done|].
  unfold fetch_requests in Hq. rewrite Hget in Hq. simpl in Hq.
  repeat (apply elem_of_cons in Hq as [->|Hq]; [done|]).
  by apply elem_of_nil in Hq.
Qed.

(** X2: when all four responses carry a body, [fetchDashboardData]
    stores the four payloads, ends the loading state, keeps the slider
    value and the selection, and neither touches storage nor navigates
    nor logs. *)
Theorem fetch_success_updates_all api st ls rs o a r p :
  data (overviewRes rs) = Some o →
  data (assetsRes rs) = Some a →
  data (rewardsRes rs) = Some r →
  data (perfRes rs) = Some p →
  outcome (fetchDashboardData api st ls) (Fulfilled rs)
  = (mkState false (Some o) a r p (dateRange st) (selectedAssets st), ls, []).
Proof.
  intros Ho Ha Hr Hp. simpl. unfold try_body. by rewrite Ho, Ha, Hr, Hp.
Qed.

(** X3: a fetch that ends in the [catch] block, for whatever reason,
    leaves [loading] as it was; a page that was showing the loading
    screen keeps showing it. *)
Theorem fetch_failure_keeps_loading api st ls res err :
  caught st res = Some err →
  let st' := (outcome (fetchDashboardData api st ls) res).1.1 in
  loading st' = loading st
  ∧ dateRange st' = dateRange st
  ∧ selectedAssets st' = selectedAssets st
  ∧ (loading st = true → render st' = LoadingView).
Proof.
  intros Hc.
  destruct (fetch_outcome_caught api st ls res err Hc) as (st1 & Hout & Hrej).
  simpl in *. rewrite Hout.
  assert ((on_error st1 ls err).1.1 = st1) as ->
    by (unfold on_error; by destruct (is_401 err)).
  assert (loading st1 = loading st ∧ dateRange st1 = dateRange st
          ∧ selectedAssets st1 = selectedAssets st) as (Hl & Hd & Hs).
  { destruct res as [rs|e]; [|by rewrite (Hrej e eq_refl)].
    simpl in Hc, Hout.
    destruct (try_body_fields st rs) as (Hd & Hs & _ & _ & _ & _ & Hl & Hnone).
    destruct (try_body st rs) as [st2 [e|]] eqn:Ht; simpl in *; [|done].
    assert (st1 = st2) as ->.
    { unfold on_error in Hout.
      destruct (is_401 e), (is_401 err); by inversion Hout. }
    split; [|done].
    rewrite Hl.
    destruct (data (overviewRes rs)), (data (assetsRes rs)),
      (data (rewardsRes rs)), (data (perfRes rs)); try done.
    assert (Some e = None) as Habs by (apply Hnone; eauto 10).
    discriminate Habs. }
  repeat split; try done.
  intros Hload. unfold render. by rewrite Hl, Hload.
Qed.

(** X4: whatever the requests return, the effect hook never adds or
    changes a storage entry: every key other than ['token'] keeps its
    value, and ['token'] is either kept or removed. *)
Theorem dashboard_never_writes_storage api st ls res :
  let ls' := (outcome (useEffect api st ls) res).1.2 in
  ls' ⊆ ls
  ∧ (∀ k, k ≠ "token" → ls' !! k = ls !! k)
  ∧ (ls' !! "token" = ls !! "token" ∨ ls' !! "token" = None).
Proof.
  assert ((outcome (useEffect api st ls) res).1.2 = ls
          ∨ (outcome (useEffect api st ls) res).1.2 = delete "token" ls)
    as [->| ->].
  { unfold useEffect. destruct (negb _); simpl; [by left|].
    destruct res as [rs|err]; simpl.
    - destruct (try_body st rs) as [st' [e|]]; simpl; [|by left].
      unfold on_error. destruct (is_401 e); simpl; [by right | by left].
    - unfold on_error. destruct (is_401 err); simpl; [by right | by left]. }
  - simpl. repeat split; [done | by left].
  - simpl. split; [apply delete_subseteq|]. split.
    + intros k Hk. by apply lookup_delete_ne.
    + right. apply lookup_delete_eq.
Qed.

(** X5: [fetchDashboardData] navigates, and removes the token, exactly
    when [await] threw an error carrying a response of status 401; it
    never navigates anywhere but to ["/"]. *)
Theorem fetch_navigates_iff_401 api st ls res :
  let '(_, ls', effs) := outcome (fetchDashboardData api st ls) res in
  (Navigate "/" ∈ effs ↔
   ∃ err r, res = Rejected err ∧ response err = Some r ∧ status r = 401%Z)
  ∧ (∀ p, Navigate p ∈ effs → p = "/")
  ∧ (Navigate "/" ∈ effs → ls' = delete "token" ls)
  ∧ (Navigate "/" ∉ effs → ls' = ls).
Proof.
  assert (∀ st1 e, is_401 e = false →
            let '(_, ls', effs) := on_error st1 ls e in
            (∀ p, Navigate p ∉ effs) ∧ ls' = ls) as Hother.
  { intros st1 e He. rewrite on_error_other by done. split; [|done].
    intros p Hp. apply list_elem_of_singleton in Hp. discriminate. }
  destruct res as [rs|err]; simpl.
  - destruct (try_body st rs) as [st1 [e|]] eqn:Ht; simpl.
    + pose proof (try_body_error st rs e) as He. rewrite Ht in He.
      specialize (He eq_refl). specialize (Hother st1 e He).
      destruct (on_error st1 ls e) as [[st2 ls2] effs].
      destruct Hother as [Hno ->].
      repeat split; try done.
      * intros Hn. by destruct (Hno "/").
      * intros (err & r & [=] & _).
      * intros p Hp. by destruct (Hno p).
      * intros Hn. by destruct (Hno "/").
    + repeat split; try done.
      * intros Hn. by apply elem_of_nil in Hn.
      * intros (err & r & [=] & _).
      * intros p Hp. by apply elem_of_nil in Hp.
      * intros Hn. by apply elem_of_nil in Hn.
  - destruct (is_401 err) eqn:He.
    + rewrite on_error_401 by done.
      repeat split; try done.
      * intros _. exists err. unfold is_401 in He.
        destruct (response err) as [r|]; [|done].
        exists r. repeat split. by apply Z.eqb_eq.
      * intros _. right. left.
      * intros p Hp. apply elem_of_cons in Hp as [[=]|Hp].
        apply list_elem_of_singleton in Hp. by inversion Hp.
      * intros Hn. destruct Hn. right. left.
    + specialize (Hother st err He).
      destruct (on_error st ls err) as [[st2 ls2] effs].
      destruct Hother as [Hno ->].
      repeat split; try done.
      * intros Hn. by destruct (Hno "/").
      * intros (err' & r & [= <-] & Hr & Hs).
        unfold is_401 in He. rewrite Hr in He.
        apply Z.eqb_neq in He. done.
      * intros p Hp. by destruct (Hno p).
      * intros Hn. by destruct (Hno "/").
Qed.

(** X6: the [try] block is not atomic; each of the four payloads is
    stored exactly when its own body and the bodies before it are
    present, and [loading] ends only when all four are. *)
Theorem fetch_update_is_stepwise api st ls rs :
  let st' := (outcome (fetchDashboardData api st ls) (Fulfilled rs)).1.1 in
  overview st'
  = match data (overviewRes rs) with
    | Some o => Some o
    | None => overview st
    end
  ∧ assets st'
    = match data (overviewRes rs), data (assetsRes rs) with
      | Some _, Some a => a
      | _, _ => assets st
      end
  ∧ rewardsHistory st'
    = match data (overviewRes rs), data (assetsRes rs), data (rewardsRes rs) with
      | Some _, Some _, Some r => r
      | _, _, _ => rewardsHistory st
      end
  ∧ performance st'
    = match data (overviewRes rs), data (assetsRes rs), data (rewardsRes rs),
            data (perfRes rs) with
      | Some _, Some _, Some _, Some p => p
      | _, _, _, _ => performance st
      end
  ∧ loading st'
    = match data (overviewRes rs), data (assetsRes rs), data (rewardsRes rs),
            data (perfRes rs) with
      | Some _, Some _, Some _, Some _ => false
      | _, _, _, _ => loading st
      end.
Proof.
  destruct (try_body_fields st rs) as (_ & _ & Ho & Ha & Hr & Hp & Hl & _).
  assert ((outcome (fetchDashboardData api st ls) (Fulfilled rs)).1.1
          = (try_body st rs).1) as ->.
  { simpl. destruct (try_body st rs) as [st1 [e|]]; simpl; [|done].
    unfold on_error. by destruct (is_401 e). }
  done.
Qed.

(** X7: once the user has logged out, or a 401 has forced the logout,
    entering the dashboard again sends no request and navigates to
    ["/"]. *)
Theorem logged_out_revisit_redirects api st st2 ls err :
  is_401 err = true →
  let ls_out := (handleLogout st ls).1.2 in
  let ls_401 := (outcome (fetchDashboardData api st ls) (Rejected err)).1.2 in
  useEffect api st2 ls_out = Finished st2 ls_out [Navigate "/"]
  ∧ requests (useEffect api st2 ls_out) = []
  ∧ useEffect api st2 ls_401 = Finished st2 ls_401 [Navigate "/"]
  ∧ requests (useEffect api st2 ls_401) = [].
Proof.
  intros He. simpl. rewrite on_error_401 by done. simpl.
  assert (∀ ls0 : Storage, ls0 !! "token" = None →
            useEffect api st2 ls0 = Finished st2 ls0 [Navigate "/"]) as Hgo.
  { intros ls0 H0. apply useEffect_no_token. unfold getItem. by rewrite H0. }
  assert (removeItem "username" (removeItem "token" ls) !! "token" = None) as H1.
  { unfold removeItem. rewrite lookup_delete_ne by done. apply lookup_delete_eq. }
  assert (removeItem "token" ls !! "token" = None) as H2
    by apply lookup_delete_eq.
  rewrite !(Hgo _ H1), !(Hgo _ H2). done.
Qed.

(** X8: in every state of a mounted dashboard the selection is empty,
    so the asset list shows every asset received: no handler ever calls
    [setSelectedAssets]. *)
Theorem mounted_dashboard_lists_all_assets st :
  reachable st →
  selectedAssets st = [] ∧ filteredAssets st = assets st.
Proof.
  intros Hr. destruct (reachable_inv st Hr) as (Hsel & _).
  split; [done|]. unfold filteredAssets. by rewrite Hsel.
Qed.

(** X10: with a slider that yields whole values from 7 to 90, the
    [days] parameter a mounted dashboard sends is always such a value:
    its requests go to the four staking URLs, the two histories with
    [?days=d] for the one [d] the slider holds. *)
Theorem mounted_dashboard_days st :
  reachable st →
  ∃ d, dateRange st = [d]
       ∧ (7 ≤ d ≤ 90)%Z
       ∧ ∀ api ls q,
           q ∈ requests (useEffect api st ls) →
           req_url q ∈ [ api +:+ "/staking/overview";
                         api +:+ "/staking/assets";
                         api +:+ "/staking/rewards-history?days=" +:+ pretty d;
                         api +:+ "/staking/performance?days=" +:+ pretty d ].
Proof.
  intros Hr. destruct (reachable_inv st Hr) as (_ & _ & d & Hd & Hrange).
  exists d. split; [done|]. split; [done|].
  intros api ls q Hq. apply useEffect_requests in Hq as (t & _ & _ & _ & Hq).
  unfold fetch_requests in Hq. rewrite Hd in Hq. simpl in Hq.
  repeat (apply elem_of_cons in Hq as [->|Hq];
          [simpl; repeat first [by left | right]|]).
  by apply elem_of_nil in Hq.
Qed.

(** The filter as an order-preserving selection by membership. *)
Lemma filteredAssets_filter st :
  filteredAssets st = filteredAssets_spec (selectedAssets st) (assets st).
Proof.
  unfold filteredAssets, filteredAssets_spec.
  destruct (selectedAssets st) as [|s sel] eqn:Hsel; simpl; [done|].
  apply array_filter_filter. intros a.
  exact (includes_elem_of (s :: sel) (asset_symbol a)).
Qed.

Lemma filter_all_iff {A : Type} (P : A → Prop) `{∀ x, Decision (P x)}
    (l : list A) :
  filter P l = l ↔ ∀ x, x ∈ l → P x.
Proof.
  induction l as [|x l IH].
  - split; [intros _ y Hy; by apply elem_of_nil in Hy | done].
  - destruct (decide (P x)) as [HP|HP].
    + rewrite filter_cons_True by done. split.
      * intros [= Hl] y Hy. apply elem_of_cons in Hy as [->|Hy]; [done|].
        by apply IH.
      * intros Hall. f_equal. apply IH. intros y Hy. apply Hall. by right.
    + rewrite filter_cons_False by done. split.
      * intros Hl. pose proof (length_filter P l) as Hlen.
        rewrite Hl in Hlen. simpl in Hlen. lia.
      * intros Hall. destruct HP. apply Hall. left.
Qed.

Lemma filter_none_iff {A : Type} (P : A → Prop) `{∀ x, Decision (P x)}
    (l : list A) :
  filter P l = [] ↔ ∀ x, x ∈ l → ¬ P x.
Proof.
  induction l as [|x l IH].
  - split; [intros _ y Hy; by apply elem_of_nil in Hy | done].
  - destruct (decide (P x)) as [HP|HP].
    + rewrite filter_cons_True by done. split; [discriminate|].
      intros Hall. destruct (Hall x); [left | done].
    + rewrite filter_cons_False by done. rewrite IH. split.
      * intros Hall y Hy. apply elem_of_cons in Hy as [->|Hy]; [done|].
        by apply Hall.
      * intros Hall y Hy. apply Hall. by right.
Qed.

(** X11: the filter looks at the selection as a set: two selections
    with the same members, in any order and with any repetitions, give
    the same filtered list. *)
Theorem filteredAssets_selection_as_set st1 st2 :
  assets st1 = assets st2 →
  (∀ x, x ∈ selectedAssets st1 ↔ x ∈ selectedAssets st2) →
  filteredAssets st1 = filteredAssets st2.
Proof.
  intros Ha Hsel. rewrite !filteredAssets_filter, Ha.
  unfold filteredAssets_spec.
  destruct (selectedAssets st1) as [|x1 l1] eqn:H1,
           (selectedAssets st2) as [|x2 l2] eqn:H2; simpl.
  - done.
  - assert (x2 ∈ []) as Habs by (apply Hsel; left). by apply elem_of_nil in Habs.
  - assert (x1 ∈ []) as Habs by (apply Hsel; left). by apply elem_of_nil in Habs.
  - apply list_filter_iff. intros a. apply Hsel.
Qed.

(** X12: filtering what the filter returned changes nothing, and the
    filter never returns more entries than it was given. *)
Theorem filteredAssets_idempotent st :
  filteredAssets (setAssets (filteredAssets st) st) = filteredAssets st
  ∧ (length (filteredAssets st) ≤ length (assets st))%nat.
Proof.
  rewrite (filteredAssets_filter (setAssets _ _)), filteredAssets_filter.
  simpl. unfold filteredAssets_spec. case_decide as Hsel.
  - done.
  - split; [|apply length_filter].
    by apply list_filter_filter_l.
Qed.

(** X13: with a non-empty selection the filtered list is empty exactly
    when no asset has a selected symbol, and it is the whole list
    exactly when every asset has one. *)
Theorem filteredAssets_none_or_all st :
  selectedAssets st ≠ [] →
  (filteredAssets st = [] ↔
   ∀ a, a ∈ assets st → asset_symbol a ∉ selectedAssets st)
  ∧ (filteredAssets st = assets st ↔
     ∀ a, a ∈ assets st → asset_symbol a ∈ selectedAssets st).
Proof.
  intros Hsel. rewrite filteredAssets_filter. unfold filteredAssets_spec.
  rewrite decide_False by done.
  split; [apply filter_none_iff | apply filter_all_iff].
Qed.

End DashboardFacts.

(** ** More about the login page, and the two pages together *)
Section LoginFacts.

Import LoginPage LoginForm.

Implicit Types (st : LoginPage.State) (ls : Storage) (err : JsError).

(** The three ways [handleSubmit] can end. *)
Lemma handleSubmit_outcome api st ls res :
  outcome (handleSubmit api st ls) res
  = match res with
    | Fulfilled r =>
        match data r with
        | Some d =>
            if truthy (success d)
            then (mkState (isLogin st) false (JStr "") (formData st),
                  setItem "username" (username d) (setItem "token" (token d) ls),
                  [Navigate "/dashboard"])
            else (mkState (isLogin st) false
                          (js_or (error d) (JStr "Authentication failed"))
                          (formData st), ls, [])
        | None =>
            (mkState (isLogin st) false (catch_message (type_error "success"))
                     (formData st), ls, [])
        end
    | Rejected err =>
        (mkState (isLogin st) false (catch_message err) (formData st), ls, [])
    end.
Proof.
  simpl. unfold try_body.
  destruct res as [r|err]; [|done].
  destruct (data r) as [d|]; [|done].
  by destruct (truthy (success d)).
Qed.

Lemma js_or_truthy_l a b : truthy a = true → js_or a b = a.
Proof. unfold js_or. by intros ->. Qed.

Lemma js_or_falsy_l a b : truthy a = false → js_or a b = b.
Proof. unfold js_or. by intros ->. Qed.

Lemma truthy_nonempty s : s ≠ "" → truthy (JStr s) = true.
Proof. simpl. by destruct (String.eqb_spec s ""). Qed.

(** X14: in login mode the request is one POST to [/auth/login] with the
    email and the password only: it carries no header, and neither the
    username field nor anything in browser-local storage changes it. *)
Theorem login_request_omits_username api st ls ls' v :
  isLogin st = true →
  requests (handleSubmit api (changeUsername v st) ls')
  = requests (handleSubmit api st ls)
  ∧ requests (handleSubmit api st ls)
    = [mkRequest true (api +:+ "/auth/login") []
         (Some (LoginBody (fd_email (formData st)) (fd_password (formData st))))].
Proof.
  intros Hl. simpl. unfold endpoint, payload. simpl. by rewrite Hl.
Qed.

(** X15: however the request ends, [handleSubmit] leaves the form
    enabled again ([loading] false) in the same mode and with the same
    field contents. *)
Theorem submit_always_reenables api st ls res :
  let st' := (outcome (handleSubmit api st ls) res).1.1 in
  loading st' = false
  ∧ submit_disabled (render st') = false
  ∧ isLogin st' = isLogin st
  ∧ formData st' = formData st.
Proof.
  rewrite handleSubmit_outcome.
  destruct res as [r|err]; simpl; [|done].
  destruct (data r) as [d|]; simpl; [|done].
  by destruct (truthy (success d)).
Qed.

(** X16: [handleSubmit] navigates, and only to ["/dashboard"], exactly
    when the response's [success] is truthy; then no alert is left on
    the form, whatever was shown before.  It never logs, and it never
    touches a storage key other than ['token'] and ['username']. *)
Theorem submit_navigates_iff_accepted api st ls res :
  let '(st', ls', effs) := outcome (handleSubmit api st ls) res in
  (effs = [Navigate "/dashboard"] ∨ effs = [])
  ∧ (effs = [Navigate "/dashboard"] ↔ accepted res = true)
  ∧ (accepted res = true → alert (render st') = None)
  ∧ (∀ k, k ≠ "token" → k ≠ "username" → ls' !! k = ls !! k).
Proof.
  rewrite handleSubmit_outcome.
  destruct res as [r|err]; simpl.
  - destruct (data r) as [d|]; simpl.
    + destruct (truthy (success d)); simpl.
      * repeat split; try done; [by left|].
        intros k H1 H2. unfold setItem. by rewrite !lookup_insert_ne.
      * repeat split; try done; by right.
    + repeat split; try done; by right.
  - repeat split; try done; by right.
Qed.

(** X17: when a submission is not accepted and the body the server sent
    has a non-empty [error] string, the alert shows exactly that
    string, for a rejected request as for a resolved one. *)
Theorem server_error_text_is_shown api st ls res d s :
  accepted res = false →
  server_body res = Some d →
  error d = JStr s →
  s ≠ "" →
  alert (render (outcome (handleSubmit api st ls) res).1.1) = Some s.
Proof.
  intros Hacc Hbody Herr Hs. rewrite handleSubmit_outcome.
  pose proof (truthy_nonempty s Hs) as Ht.
  destruct res as [r|err]; cbn [accepted server_body] in Hacc, Hbody.
  - rewrite Hbody in Hacc |- *. rewrite Hacc, Herr, (js_or_truthy_l _ _ Ht).
    unfold render. cbn [fst error_msg alert]. by rewrite Ht.
  - unfold catch_message, response_error.
    destruct (response err) as [r|]; [|done]. rewrite Hbody, Herr.
    rewrite (js_or_truthy_l _ _ Ht).
    unfold render. cbn [fst error_msg alert]. by rewrite Ht.
Qed.

(** X18: without an error text from the server the alert falls back: a
    rejected request shows the error's own message, and ["An error
    occurred"] when that message is empty; a
    resolved request whose body has neither truthy [success] nor truthy
    [error] shows ["Authentication failed"]. *)
Theorem fallback_error_texts api st ls err m r d :
  truthy (response_error err) = false →
  message err = JStr m →
  data r = Some d →
  truthy (success d) = false →
  truthy (error d) = false →
  alert (render (outcome (handleSubmit api st ls) (Rejected err)).1.1)
  = Some (if String.eqb m "" then "An error occurred" else m)
  ∧ alert (render (outcome (handleSubmit api st ls) (Fulfilled r)).1.1)
    = Some "Authentication failed".
Proof.
  intros Hre Hm Hd Hs He. rewrite !handleSubmit_outcome. rewrite Hd, Hs.
  unfold catch_message.
  rewrite (js_or_falsy_l _ _ Hre), (js_or_falsy_l _ _ He), Hm.
  unfold render, js_or. cbn [fst error_msg alert].
  split; [|done].
  simpl. destruct (String.eqb m "") eqn:Hm0; simpl; by rewrite ?Hm0.
Qed.

(** X19: the mode button flips between login and signup, clears the
    alert and keeps the field contents; pressing it twice gives back
    the mode, and the next submission goes to the other endpoint. *)
Theorem toggle_mode_flips api st ls :
  toggleMode (toggleMode st) = setError (JStr "") st
  ∧ isLogin (toggleMode st) = negb (isLogin st)
  ∧ alert (render (toggleMode st)) = None
  ∧ formData (toggleMode st) = formData st
  ∧ loading (toggleMode st) = loading st
  ∧ map req_url (requests (handleSubmit api (toggleMode st) ls))
    = [api +:+ (if isLogin st then "/auth/signup" else "/auth/login")].
Proof.
  unfold toggleMode, setError, setIsLogin. simpl.
  rewrite negb_involutive. repeat split.
  unfold endpoint. simpl. by destruct (isLogin st).
Qed.

(** X20: edits of the three fields commute, the last edit of a field
    wins, and the body of the next submission holds the last values
    typed: email and password in login mode, all three in signup mode.
    Edits change nothing else of the form. *)
Theorem field_edits_compose st e p u e0 :
  changeEmail e (changePassword p (changeUsername u st))
  = setFormData (mkFormData e p u) st
  ∧ changeUsername u (changeEmail e (changePassword p st))
    = setFormData (mkFormData e p u) st
  ∧ changePassword p (changeUsername u (changeEmail e st))
    = setFormData (mkFormData e p u) st
  ∧ changeEmail e (changeEmail e0 st) = changeEmail e st
  ∧ payload (setFormData (mkFormData e p u) st)
    = (if isLogin st then LoginBody e p else SignupBody (mkFormData e p u))
  ∧ isLogin (setFormData (mkFormData e p u) st) = isLogin st
  ∧ error_msg (setFormData (mkFormData e p u) st) = error_msg st
  ∧ loading (setFormData (mkFormData e p u) st) = loading st.
Proof. repeat split. Qed.

End LoginFacts.

(** ** The two pages together *)
Section PagesTogether.

Import DashboardSession.

Implicit Types (ls : Storage) (lst : LoginPage.State) (dst : DashboardPage.State).

(** X21: every navigation a handler performs goes to a route [App.js]
    declares: the login page navigates to ["/dashboard"] only, the
    dashboard's effect hook and logout button to ["/"] only; none of
    them relies on the catch-all redirect. *)
Theorem handlers_navigate_to_declared_routes api lst dst ls lres dres p :
  (p ∈ navigations (outcome (LoginPage.handleSubmit api lst ls) lres).2 →
   p = "/dashboard" ∧ App.route p = App.Element App.DashboardPage)
  ∧ (p ∈ navigations (outcome (DashboardPage.useEffect api dst ls) dres).2
     ∨ p ∈ navigations (DashboardPage.handleLogout dst ls).2 →
     p = "/" ∧ App.route p = App.Element App.LoginPage).
Proof.
  split.
  - rewrite handleSubmit_outcome.
    destruct lres as [r|err]; simpl;
      [destruct (data r) as [d|]; simpl;
       [destruct (truthy (success d)); simpl|]|];
      intros Hp; try (by apply elem_of_nil in Hp).
    apply list_elem_of_singleton in Hp as ->. done.
  - intros [Hp|Hp].
    + unfold DashboardPage.useEffect in Hp.
      destruct (negb _); simpl in Hp.
      { apply list_elem_of_singleton in Hp as ->. done. }
      assert (∀ st1 e,
                p ∈ navigations (DashboardPage.on_error st1 ls e).2 →
                p = "/" ∧ App.route p = App.Element App.LoginPage) as Herr.
      { intros st1 e. unfold DashboardPage.on_error.
        destruct (DashboardPage.is_401 e); simpl; intros H.
        - apply list_elem_of_singleton in H as ->. done.
        - by apply elem_of_nil in H. }
      destruct dres as [rs|err]; simpl in Hp; [|by eapply Herr].
      destruct (DashboardPage.try_body dst rs) as [st1 [e|]];
        [by eapply Herr | by apply elem_of_nil in Hp].
    + simpl in Hp. apply list_elem_of_singleton in Hp as ->. done.
Qed.

(** X22: a response with truthy [success] whose [token] is the empty
    string still sends the login page to ["/dashboard"], but the
    dashboard then finds no usable token: it sends nothing and
    navigates back to ["/"]. *)
Theorem empty_token_bounces_back api lst ls r d :
  data r = Some d →
  truthy (success d) = true →
  token d = JStr "" →
  let '(_, ls', effs) := outcome (LoginPage.handleSubmit api lst ls) (Fulfilled r) in
  effs = [Navigate "/dashboard"]
  ∧ ls' !! "token" = Some ""
  ∧ ∀ api' dst,
      DashboardPage.useEffect api' dst ls' = Finished dst ls' [Navigate "/"].
Proof.
  intros Hd Hs Ht. rewrite handleSubmit_outcome, Hd, Hs.
  assert (setItem "username" (username d) (setItem "token" (token d) ls)
            !! "token" = Some "") as Hl.
  { unfold setItem. rewrite lookup_insert_ne by done.
    rewrite lookup_insert_eq. by rewrite Ht. }
  split; [done|]. split; [exact Hl|].
  intros api' dst. apply useEffect_no_token.
  unfold getItem. by rewrite Hl.
Qed.

(** X23: a response with truthy [success] that lacks the [token] field
    makes the login page store the text ["undefined"], and the
    dashboard then sends its four requests with the header
    [Authorization: Bearer undefined]. *)
Theorem missing_token_is_stored_as_text api lst ls r d :
  data r = Some d →
  truthy (success d) = true →
  token d = JUndefined →
  let ls' := (outcome (LoginPage.handleSubmit api lst ls) (Fulfilled r)).1.2 in
  ls' !! "token" = Some "undefined"
  ∧ ∀ api' dst,
      map req_headers (requests (DashboardPage.useEffect api' dst ls'))
      = replicate 4 [("Authorization", "Bearer undefined")].
Proof.
  intros Hd Hs Ht. rewrite handleSubmit_outcome, Hd, Hs. cbn [fst snd].
  assert (setItem "username" (username d) (setItem "token" (token d) ls)
            !! "token" = Some "undefined") as Hl.
  { unfold setItem. rewrite lookup_insert_ne by done.
    rewrite lookup_insert_eq. by rewrite Ht. }
  split; [exact Hl|].
  intros api' dst.
  assert (getItem (setItem "username" (username d)
                           (setItem "token" (token d) ls)) "token"
          = JStr "undefined") as Hg by (unfold getItem; by rewrite Hl).
  rewrite useEffect_token by by rewrite Hg.
  simpl. unfold DashboardPage.fetch_requests. by rewrite Hg.
Qed.

(** X24: logging out undoes what an accepted login stored: after
    [handleSubmit] has been accepted and [handleLogout] has run, storage
    is the storage from before the login without ['token'] and
    ['username'], hence that very storage if it held neither. *)
Theorem login_then_logout_restores_storage api lst dst ls r d :
  data r = Some d →
  truthy (success d) = true →
  let ls1 := (outcome (LoginPage.handleSubmit api lst ls) (Fulfilled r)).1.2 in
  let ls2 := (DashboardPage.handleLogout dst ls1).1.2 in
  ls2 = delete "username" (delete "token" ls)
  ∧ (ls !! "token" = None → ls !! "username" = None → ls2 = ls).
Proof.
  intros Hd Hs. rewrite handleSubmit_outcome, Hd, Hs. cbn [fst snd].
  unfold DashboardPage.handleLogout, removeItem, setItem. cbn [fst snd].
  assert (delete "username"
            (delete "token"
               (<["username":=to_string (username d)]>
                  (<["token":=to_string (token d)]> ls)))
          = delete "username" (delete "token" ls)) as ->.
  { apply map_eq. intros k.
    destruct (decide (k = "username")) as [->|Hu];
      [by rewrite !lookup_delete_eq|].
    rewrite !(lookup_delete_ne _ "username") by done.
    destruct (decide (k = "token")) as [->|Ht];
      [by rewrite !lookup_delete_eq|].
    rewrite !(lookup_delete_ne _ "token") by done.
    by rewrite !lookup_insert_ne. }
  split; [done|].
  intros H1 H2. rewrite (delete_id ls "token") by done. by apply delete_id.
Qed.

End PagesTogether.

(** ** The further theorems at concrete inputs *)
Section MoreInstances.

Import Examples MoreExamples DashboardPage DashboardSession.

Lemma moved_and_loaded_reachable : reachable moved_and_loaded.
Proof.
  unfold moved_and_loaded. apply reach_effect. apply reach_slider.
  - apply reach_initial.
  - unfold slider_min, slider_max. lia.
Defined.

Lemma protected_requests_carry_token_witness :
  assets_request ∈ requests (useEffect "/api" initial stored_session)
  ∧ ∃ t, stored_session !! "token" = Some t
         ∧ t ≠ ""
         ∧ req_headers assets_request = [("Authorization", "Bearer " +:+ t)]
         ∧ req_post assets_request = false
         ∧ req_body assets_request = None.
Proof.
  assert (assets_request ∈ requests (useEffect "/api" initial stored_session))
    as Hq by (right; left).
  split; [exact Hq|].
  exact (protected_requests_carry_token "/api" initial stored_session
           assets_request Hq).
Defined.

Lemma fetch_success_updates_all_witness :
  data (overviewRes all_ok) = Some overview_body
  ∧ data (assetsRes all_ok) = Some two_assets
  ∧ data (rewardsRes all_ok) = Some []
  ∧ data (perfRes all_ok) = Some []
  ∧ outcome (fetchDashboardData "/api" initial stored_session) (Fulfilled all_ok)
    = (mkState false (Some overview_body) two_assets [] []
               (dateRange initial) (selectedAssets initial),
       stored_session, []).
Proof.
  do 4 (split; [reflexivity|]).
  exact (fetch_success_updates_all "/api" initial stored_session all_ok
           overview_body two_assets [] [] eq_refl eq_refl eq_refl eq_refl).
Defined.

Lemma fetch_failure_keeps_loading_witness :
  caught initial (Rejected server_error) = Some server_error
  ∧ let st' := (outcome (fetchDashboardData "/api" initial stored_session)
                        (Rejected server_error)).1.1 in
    loading st' = loading initial
    ∧ dateRange st' = dateRange initial
    ∧ selectedAssets st' = selectedAssets initial
    ∧ (loading initial = true → render st' = LoadingView).
Proof.
  split; [reflexivity|].
  exact (fetch_failure_keeps_loading "/api" initial stored_session
           (Rejected server_error) server_error eq_refl).
Defined.

Lemma logged_out_revisit_redirects_witness :
  is_401 unauthorized = true
  ∧ let ls_out := (handleLogout initial stored_session).1.2 in
    let ls_401 := (outcome (fetchDashboardData "/api" initial stored_session)
                           (Rejected unauthorized)).1.2 in
    useEffect "/api" initial ls_out = Finished initial ls_out [Navigate "/"]
    ∧ requests (useEffect "/api" initial ls_out) = []
    ∧ useEffect "/api" initial ls_401 = Finished initial ls_401 [Navigate "/"]
    ∧ requests (useEffect "/api" initial ls_401) = [].
Proof.
  split; [reflexivity|].
  exact (logged_out_revisit_redirects "/api" initial initial stored_session
           unauthorized eq_refl).
Defined.

Lemma mounted_dashboard_lists_all_assets_witness :
  reachable moved_and_loaded
  ∧ selectedAssets moved_and_loaded = []
  ∧ filteredAssets moved_and_loaded = assets moved_and_loaded.
Proof.
  split; [exact moved_and_loaded_reachable|].
  exact (mounted_dashboard_lists_all_assets moved_and_loaded
           moved_and_loaded_reachable).
Defined.

Lemma mounted_dashboard_days_witness :
  reachable moved_and_loaded
  ∧ ∃ d, dateRange moved_and_loaded = [d]
         ∧ (7 ≤ d ≤ 90)%Z
         ∧ ∀ api ls q,
             q ∈ requests (useEffect api moved_and_loaded ls) →
             req_url q ∈ [ api +:+ "/staking/overview";
                           api +:+ "/staking/assets";
                           api +:+ "/staking/rewards-history?days=" +:+ pretty d;
                           api +:+ "/staking/performance?days=" +:+ pretty d ].
Proof.
  split; [exact moved_and_loaded_reachable|].
  exact (mounted_dashboard_days moved_and_loaded moved_and_loaded_reachable).
Defined.

Lemma same_members :
  ∀ x : string, x ∈ ["ETH"; "ADA"] ↔ x ∈ ["ADA"; "ETH"; "ETH"].
Proof.
  intros x. rewrite !elem_of_cons. split; intros H; tauto.
Defined.

Lemma filteredAssets_selection_as_set_witness :
  assets (picked ["ETH"; "ADA"]) = assets (picked ["ADA"; "ETH"; "ETH"])
  ∧ (∀ x, x ∈ selectedAssets (picked ["ETH"; "ADA"])
          ↔ x ∈ selectedAssets (picked ["ADA"; "ETH"; "ETH"]))
  ∧ filteredAssets (picked ["ETH"; "ADA"])
    = filteredAssets (picked ["ADA"; "ETH"; "ETH"]).
Proof.
  split; [reflexivity|]. split; [exact same_members|].
  exact (filteredAssets_selection_as_set (picked ["ETH"; "ADA"])
           (picked ["ADA"; "ETH"; "ETH"]) eq_refl same_members).
Defined.

Lemma filteredAssets_none_or_all_witness :
  selectedAssets (picked ["SOL"]) ≠ []
  ∧ (filteredAssets (picked ["SOL"]) = [] ↔
     ∀ a, a ∈ assets (picked ["SOL"]) →
          asset_symbol a ∉ selectedAssets (picked ["SOL"]))
  ∧ (filteredAssets (picked ["SOL"]) = assets (picked ["SOL"]) ↔
     ∀ a, a ∈ assets (picked ["SOL"]) →
          asset_symbol a ∈ selectedAssets (picked ["SOL"])).
Proof.
  assert (selectedAssets (picked ["SOL"]) ≠ []) as Hne by discriminate.
  split; [exact Hne|].
  exact (filteredAssets_none_or_all (picked ["SOL"]) Hne).
Defined.

Lemma login_request_omits_username_witness :
  LoginPage.isLogin LoginPage.initial = true
  ∧ requests (LoginPage.handleSubmit "/api"
                (LoginForm.changeUsername "ann" LoginPage.initial) stored_session)
    = requests (LoginPage.handleSubmit "/api" LoginPage.initial ∅)
  ∧ requests (LoginPage.handleSubmit "/api" LoginPage.initial ∅)
    = [mkRequest true ("/api" +:+ "/auth/login") []
         (Some (LoginBody (fd_email (LoginPage.formData LoginPage.initial))
                          (fd_password (LoginPage.formData LoginPage.initial))))].
Proof.
  split; [reflexivity|].
  exact (login_request_omits_username "/api" LoginPage.initial ∅
           stored_session "ann" eq_refl).
Defined.

Lemma server_error_text_is_shown_witness :
  LoginPage.accepted (Rejected unauthorized) = false
  ∧ LoginForm.server_body (Rejected unauthorized)
    = Some (mkBody (JBool false) JUndefined JUndefined (JStr "Invalid token"))
  ∧ "Invalid token" ≠ ""
  ∧ LoginPage.alert
      (LoginPage.render
         (outcome (LoginPage.handleSubmit "/api" LoginPage.initial ∅)
                  (Rejected unauthorized)).1.1)
    = Some "Invalid token".
Proof.
  assert ("Invalid token" ≠ "") as Hne by discriminate.
  split; [reflexivity|]. split; [reflexivity|]. split; [exact Hne|].
  exact (server_error_text_is_shown "/api" LoginPage.initial ∅
           (Rejected unauthorized) _ "Invalid token" eq_refl eq_refl eq_refl Hne).
Defined.

Lemma fallback_error_texts_witness :
  truthy (LoginPage.response_error network_error) = false
  ∧ message network_error = JStr "Network Error"
  ∧ truthy (success silent_body) = false
  ∧ truthy (error silent_body) = false
  ∧ LoginPage.alert
      (LoginPage.render
         (outcome (LoginPage.handleSubmit "/api" LoginPage.initial ∅)
                  (Rejected network_error)).1.1)
    = Some (if String.eqb "Network Error" "" then "An error occurred"
            else "Network Error")
  ∧ LoginPage.alert
      (LoginPage.render
         (outcome (LoginPage.handleSubmit "/api" LoginPage.initial ∅)
                  (Fulfilled (mkResponse 200%Z (Some silent_body)))).1.1)
    = Some "Authentication failed".
Proof.
  do 4 (split; [reflexivity|]).
  exact (fallback_error_texts "/api" LoginPage.initial ∅ network_error
           "Network Error" (mkResponse 200%Z (Some silent_body)) silent_body
           eq_refl eq_refl eq_refl eq_refl eq_refl).
Defined.

Lemma empty_token_bounces_back_witness :
  truthy (success empty_token_body) = true
  ∧ token empty_token_body = JStr ""
  ∧ let '(_, ls', effs) :=
        outcome (LoginPage.handleSubmit "/api" LoginPage.initial ∅)
                (Fulfilled (mkResponse 200%Z (Some empty_token_body))) in
    effs = [Navigate "/dashboard"]
    ∧ ls' !! "token" = Some ""
    ∧ ∀ api' dst, useEffect api' dst ls' = Finished dst ls' [Navigate "/"].
Proof.
  split; [reflexivity|]. split; [reflexivity|].
  exact (empty_token_bounces_back "/api" LoginPage.initial ∅
           (mkResponse 200%Z (Some empty_token_body)) empty_token_body
           eq_refl eq_refl eq_refl).
Defined.

Lemma missing_token_is_stored_as_text_witness :
  truthy (success no_token_body) = true
  ∧ token no_token_body = JUndefined
  ∧ let ls' :=
        (outcome (LoginPage.handleSubmit "/api" LoginPage.initial ∅)
                 (Fulfilled (mkResponse 200%Z (Some no_token_body)))).1.2 in
    ls' !! "token" = Some "undefined"
    ∧ ∀ api' dst,
        map req_headers (requests (useEffect api' dst ls'))
        = replicate 4 [("Authorization", "Bearer undefined")].
Proof.
  split; [reflexivity|]. split; [reflexivity|].
  exact (missing_token_is_stored_as_text "/api" LoginPage.initial ∅
           (mkResponse 200%Z (Some no_token_body)) no_token_body
           eq_refl eq_refl eq_refl).
Defined.

Lemma login_then_logout_restores_storage_witness :
  data ok_response = Some ok_body
  ∧ truthy (success ok_body) = true
  ∧ let ls1 := (outcome (LoginPage.handleSubmit "/api" LoginPage.initial ∅)
                        (Fulfilled ok_response)).1.2 in
    let ls2 := (handleLogout initial ls1).1.2 in
    ls2 = delete "username" (delete "token" ∅)
    ∧ ((∅ : Storage) !! "token" = None →
       (∅ : Storage) !! "username" = None → ls2 = ∅).
Proof.
  split; [reflexivity|]. split; [reflexivity|].
  exact (login_then_logout_restores_storage "/api" LoginPage.initial initial ∅
           ok_response ok_body eq_refl eq_refl).
Defined.

End MoreInstances.

(** ** Forced logout and the four parallel requests *)
Section ForcedLogout.

Import Examples MoreExamples DashboardPage PromiseAll.

Implicit Types (st : State) (ls : Storage) (f : InFlight).


(** When no request fails, [Promise.all] fulfils. *)
Lemma promise_all_fulfils f :
  failures f = [] → ∃ rs, promise_all f = Fulfilled rs.
Proof.
  destruct f as [[t1 [o|e1]] [t2 [a|e2]] [t3 [r|e3]] [t4 [p|e4]]];
    unfold promise_all, failures, all_step, rejection; simpl;
    intros Hnil; try discriminate Hnil.
  by eexists.
Qed.






End ForcedLogout.
